(** * Client-side trust engine of the license SDK: a shallow embedding

    The development follows [sdk/python/license_client.py] and
    [sdk/python/license_security.py].  Python objects become records,
    methods become functions that pass the object and the outside world
    (file system, network log) explicitly, and a raised exception is a
    [Raise] result.

    Conventions of the embedding:
    - wall-clock readings ([time.time()]) are exact rationals ([Q]); one
      reading is shared by the clock calls made within a single method call;
    - the file system is a finite map from paths to the bytes of regular
      files; reads of absent paths fail, writes and removals succeed;
    - functions of the Python runtime and of the [cryptography] package
      (SHA-256, base64, UTF-8, JSON, Fernet, PBKDF2, RSA) are the fields of
      the class [Runtime]; the SDK code is written over them. *)

From Stdlib Require Import ZArith QArith Qround String Ascii List Bool Lia.
From Stdlib.Strings Require Import Byte.
From stdpp Require Import base option gmap strings.

Set Warnings "-register-all".

#[local] Open Scope string_scope.
#[local] Open Scope list_scope.
#[local] Open Scope Z_scope.

Abbreviation bytes := (list byte).

(** ** Python values, exceptions and results *)

Module Py.

(** JSON-shaped Python values.  A float is an exact rational. *)
Inductive value : Type :=
| VNone
| VBool (b : bool)
| VInt (z : Z)
| VFloat (q : Q)
| VStr (s : string)
| VList (l : list value)
| VDict (d : list (string * value)).

(** A [dict] keeps insertion order; the first binding of a key is the
    binding. *)
Abbreviation dict := (list (string * value)).

(** The raise sites of [LicenseError] in the SDK. *)
Inductive license_msg : Type :=
| MsgNoPublicKey        (* "未配置公钥，无法验证签名" *)
| MsgCryptoMissing      (* "需要安装 cryptography 库才能验证签名" *)
| MsgInvalidPublicKey   (* "无效的公钥格式" *)
| MsgCacheDecrypt       (* "缓存数据解密失败" *)
| MsgNetwork            (* "网络请求失败" *)
| MsgNeedEmail          (* "需要提供邮箱" *)
| MsgServer (m : value) (* the server's message *).

Inductive exn : Type :=
| LicenseError (m : license_msg)
| SignatureVerificationError
| SignatureMissingError
| SignatureExpiredError
| CertificatePinningError
| RequestException
| TypeError
| ValueError
| AttributeError
| ZeroDivisionError
| UnicodeDecodeError
| FileNotFoundError
| ImportError
| Base64Error
| InvalidToken
| InvalidSignature
| JSONDecodeError.

Inductive result (A : Type) : Type :=
| Ok (a : A)
| Raise (e : exn).
Arguments Ok {A} a.
Arguments Raise {A} e.

Definition bind {A B} (r : result A) (k : A -> result B) : result B :=
  match r with
  | Ok a => k a
  | Raise e => Raise e
  end.

Definition of_option {A} (e : exn) (o : option A) : result A :=
  match o with
  | Some a => Ok a
  | None => Raise e
  end.

Definition is_ok {A} (r : result A) : bool :=
  match r with Ok _ => true | Raise _ => false end.

(** [bool(v)] *)
Definition truthy (v : value) : bool :=
  match v with
  | VNone => false
  | VBool b => b
  | VInt z => negb (z =? 0)
  | VFloat q => negb (Qeq_bool q 0)
  | VStr s => negb (String.eqb s "")
  | VList l => match l with [] => false | _ => true end
  | VDict d => match d with [] => false | _ => true end
  end.

(** [d.get(k)] and [d.get(k, default)] *)
Fixpoint dict_lookup (k : string) (d : dict) : option value :=
  match d with
  | [] => None
  | (k', v) :: rest => if String.eqb k k' then Some v else dict_lookup k rest
  end.

Definition dict_get (k : string) (d : dict) (default : value) : value :=
  match dict_lookup k d with
  | Some v => v
  | None => default
  end.

(** [d[k] = v] *)
Fixpoint dict_set (k : string) (v : value) (d : dict) : dict :=
  match d with
  | [] => [(k, v)]
  | (k', v') :: rest =>
      if String.eqb k k' then (k, v) :: rest else (k', v') :: dict_set k v rest
  end.

(** [d.update(other)] for a dict [other] *)
Definition dict_update (d other : dict) : dict :=
  fold_left (fun acc kv => dict_set (fst kv) (snd kv) acc) other d.

(** [int(x)] of a float: truncation towards zero *)
Definition Qtrunc (q : Q) : Z :=
  if Qle_bool 0 q then Qfloor q else Qceiling q.

(** The numeric value of an operand of [-] with a float. *)
Definition as_number (v : value) : result Q :=
  match v with
  | VInt z => Ok (inject_Z z)
  | VFloat q => Ok q
  | VBool b => Ok (inject_Z (if b then 1 else 0))
  | _ => Raise TypeError
  end.

(** [x != 0] *)
Definition ne_zero (v : value) : bool :=
  match v with
  | VInt z => negb (z =? 0)
  | VFloat q => negb (Qeq_bool q 0)
  | VBool b => b
  | _ => true
  end.

End Py.
Export Py.

(** [result] is a monad; [x ← r; k] runs [k] when [r] returned and
    propagates the exception otherwise. *)
#[global] Instance result_ret : MRet result := fun A a => Ok a.
#[global] Instance result_bind : MBind result := fun A B k r => Py.bind r k.

(** ** Strings and bytes *)

Module Str.

(** [c.lower()] and [c.upper()] on ASCII letters *)
Definition lower_ascii (c : ascii) : ascii :=
  let n := nat_of_ascii c in
  if (Nat.leb 65 n && Nat.leb n 90)%bool then ascii_of_nat (n + 32)%nat else c.

Definition upper_ascii (c : ascii) : ascii :=
  let n := nat_of_ascii c in
  if (Nat.leb 97 n && Nat.leb n 122)%bool then ascii_of_nat (n - 32)%nat else c.

Fixpoint map (f : ascii -> ascii) (s : string) : string :=
  match s with
  | EmptyString => EmptyString
  | String c rest => String (f c) (map f rest)
  end.

Definition lower : string -> string := map lower_ascii.
Definition upper : string -> string := map upper_ascii.

(** [s.startswith(p)] *)
Definition startswith (s p : string) : bool := String.prefix p s.

(** [s[n:]] *)
Fixpoint drop (n : nat) (s : string) : string :=
  match n, s with
  | O, _ => s
  | S n', String _ rest => drop n' rest
  | S _, EmptyString => EmptyString
  end.

(** [needle in hay] *)
Fixpoint contains (needle hay : string) : bool :=
  String.prefix needle hay ||
  match hay with
  | EmptyString => false
  | String _ rest => contains needle rest
  end.

(** [s.replace(c, by)] for a one-character pattern *)
Fixpoint replace_char (c : ascii) (by_ : string) (s : string) : string :=
  match s with
  | EmptyString => EmptyString
  | String a rest =>
      if Ascii.eqb a c then (by_ ++ replace_char c by_ rest)%string
      else String a (replace_char c by_ rest)
  end.

(** [sep.join(parts)] *)
Fixpoint join (sep : string) (parts : list string) : string :=
  match parts with
  | [] => EmptyString
  | [p] => p
  | p :: rest => (p ++ sep ++ join sep rest)%string
  end.

Definition hex_digit (n : N) : ascii :=
  match String.get (N.to_nat n) "0123456789abcdef" with
  | Some c => c
  | None => "0"%char
  end.

(** ['{:02x}'.format(b)] for [0 <= b < 256] *)
Definition hex2 (n : N) : string :=
  String (hex_digit (n / 16)%N) (String (hex_digit (n mod 16)%N) EmptyString).

(** [bs.hex()] *)
Fixpoint hex (bs : bytes) : string :=
  match bs with
  | [] => EmptyString
  | b :: rest => (hex2 (Byte.to_N b) ++ hex rest)%string
  end.

End Str.

Module Bytes.

Definition xor_bits (x y : bool * (bool * (bool * (bool * (bool * (bool * (bool * bool)))))))
  : bool * (bool * (bool * (bool * (bool * (bool * (bool * bool)))))) :=
  let '(x0, (x1, (x2, (x3, (x4, (x5, (x6, x7))))))) := x in
  let '(y0, (y1, (y2, (y3, (y4, (y5, (y6, y7))))))) := y in
  (xorb x0 y0, (xorb x1 y1, (xorb x2 y2, (xorb x3 y3,
   (xorb x4 y4, (xorb x5 y5, (xorb x6 y6, xorb x7 y7))))))).

(** [a ^ b] on two bytes *)
Definition xor (a b : byte) : byte :=
  Byte.of_bits (xor_bits (Byte.to_bits a) (Byte.to_bits b)).

End Bytes.

(** ** The Python runtime and the [cryptography] package *)

(** The object returned by [serialization.load_pem_public_key]. *)
Record RSAPublicKey : Type := { key_material : bytes }.

Class Runtime : Type := {
  (** the module-level flag set by the guarded [import cryptography] *)
  CRYPTO_AVAILABLE : bool;
  (** [s.encode()] and [b.decode()] (UTF-8) *)
  str_encode : string -> bytes;
  bytes_decode : bytes -> option string;
  (** [hashlib.sha256(b).digest()] *)
  sha256 : bytes -> bytes;
  (** [base64.b64encode(b).decode()] and [base64.b64decode(s)] *)
  b64encode : bytes -> string;
  b64decode : string -> option bytes;
  urlsafe_b64encode : bytes -> bytes;
  (** [PBKDF2HMAC(SHA256, length, salt, iterations).derive(password)] *)
  pbkdf2_hmac_sha256 : Z -> bytes -> Z -> bytes -> bytes;
  (** [Fernet(key).encrypt(data)], with the IV and timestamp it draws, and
      [Fernet(key).decrypt(token)] *)
  fernet_encrypt : bytes -> bytes -> bytes -> bytes;
  fernet_decrypt : bytes -> bytes -> option bytes;
  (** [serialization.load_pem_public_key(pem)] *)
  load_pem_public_key : bytes -> option RSAPublicKey;
  (** [load_pem_x509_certificate(pem).fingerprint(SHA256())] *)
  x509_fingerprint : bytes -> option bytes;
  (** [key.verify(signature, data, PKCS1v15(), SHA256())] returns *)
  rsa_verify : RSAPublicKey -> bytes -> bytes -> bool;
  (** [json.loads(s)], [json.dumps(v, ensure_ascii=False, indent=2)] and
      [json.dumps(d, sort_keys=True, separators=(',', ':'))] *)
  json_loads : string -> option value;
  json_dumps : value -> string;
  json_dumps_sorted : Py.dict -> string;
  (** [int(s)] of a string *)
  int_of_str : string -> option Z;
  (** [datetime.fromisoformat(s).timestamp()] *)
  fromisoformat_timestamp : string -> option Q;
  (** [str(x)] of a float and [float(s.strip())] *)
  float_str : Q -> string;
  float_of_str : string -> option Q;
  (** [os.path.join(dir, name)] *)
  path_join : string -> string -> string
}.

(** ** The outside world *)

(** Regular files by path. *)
Abbreviation file_system := (gmap string bytes).

(** [open(path, 'r').read()] *)
Definition read_text `{Runtime} (fs : file_system) (path : string) : result string :=
  content ← of_option FileNotFoundError (fs !! path);
  of_option UnicodeDecodeError (bytes_decode content).

(** [os.path.exists(path)] *)
Definition path_exists (fs : file_system) (path : string) : bool :=
  bool_decide (is_Some (fs !! path)).

(** ** Anti-analysis probes ([license_security.py]) *)

Module AntiDebug.

(** What the four debugger probes observe. *)
Record Probe : Type := {
  (** [sys.gettrace() is not None] *)
  sys_gettrace_set : bool;
  (** [os.environ.get] *)
  environ : string -> option string;
  (** [psutil.Process(os.getpid()).parent()], then [.name()]: the import or
      the call may raise, and there may be no parent *)
  parent_name : result (option string);
  (** seconds taken by [sum(range(10000))] *)
  timing_elapsed : Q
}.

Definition _check_trace (p : Probe) : result bool := Ok (sys_gettrace_set p).

Definition debug_vars : list string :=
  ["PYTHONDEBUG"; "PYTHONINSPECT"; "PYCHARM_DEBUG"; "VSCODE_DEBUG"].

Definition _check_env (p : Probe) : result bool :=
  Ok (existsb (fun var => match environ p var with
                          | Some v => truthy (VStr v)
                          | None => false
                          end) debug_vars).

Definition debuggers : list string :=
  ["pycharm"; "vscode"; "code"; "idea"; "debug"; "ida"; "olly"; "x64dbg"].

Definition _check_parent_process (p : Probe) : result bool :=
  match parent_name p with
  | Ok (Some name) =>
      Ok (existsb (fun debugger => Str.contains debugger (Str.lower name)) debuggers)
  | Ok None => Ok false
  | Raise _ => Ok false
  end.

Definition _check_timing (p : Probe) : result bool :=
  Ok (negb (Qle_bool (timing_elapsed p) (1 # 10))).

Definition checks : list (Probe -> result bool) :=
  [_check_trace; _check_env; _check_parent_process; _check_timing].

(** The loop of [is_debugger_present]: the first check that returns true
    decides; a check that raises is skipped. *)
Fixpoint run_checks (cs : list (Probe -> result bool)) (p : Probe) : bool :=
  match cs with
  | [] => false
  | check :: rest =>
      match check p with
      | Ok true => true
      | _ => run_checks rest p
      end
  end.

Definition is_debugger_present (p : Probe) : bool := run_checks checks p.

(** A probe is positive when its check returns true. *)
Definition positive (p : Probe) (check : Probe -> result bool) : bool :=
  match check p with Ok true => true | _ => false end.

End AntiDebug.

Module EnvironmentChecker.

(** What the host probes observe; each library call may raise. *)
Record Host : Type := {
  uuid_getnode : result Z;
  platform_platform : result string;
  getpass_getuser : result string;
  psutil_pids : result (list Z);
  disk_usage_total : result Z
}.

(** [':'.join(['{:02x}'.format((node >> i) & 0xff) for i in range(0, 48, 8)][::-1])] *)
Definition mac_string (node : Z) : string :=
  Str.join ":" (rev (List.map (fun i => Str.hex2 (Z.to_N (Z.land (Z.shiftr node i) 255)))
                              [0; 8; 16; 24; 32; 40])).

Definition vm_mac_prefixes : list string :=
  ["00:0c:29"; "00:50:56"; "08:00:27"; "00:1c:42"; "00:16:3e"].

Definition vm_keywords : list string :=
  ["vmware"; "virtualbox"; "virtual"; "qemu"; "xen"; "hyperv"].

Definition vm_paths : list string :=
  ["/sys/class/dmi/id/product_name";
   "C:\Windows\System32\drivers\vmmouse.sys";
   "C:\Windows\System32\drivers\VBoxMouse.sys"].

Definition vm_mac_indicator (h : Host) : list string :=
  match uuid_getnode h with
  | Ok node =>
      if existsb (fun prefix => Str.startswith (Str.lower (mac_string node)) prefix)
                 vm_mac_prefixes
      then ["mac"] else []
  | Raise _ => []
  end.

Definition vm_platform_indicator (h : Host) : list string :=
  match platform_platform h with
  | Ok info =>
      if existsb (fun keyword => Str.contains keyword (Str.lower info)) vm_keywords
      then ["platform"] else []
  | Raise _ => []
  end.

(** The scan of [vm_paths] stops at the first file that names a
    hypervisor; a file that cannot be read is skipped. *)
Fixpoint vm_file_scan `{Runtime} (fs : file_system) (paths : list string) : list string :=
  match paths with
  | [] => []
  | path :: rest =>
      if path_exists fs path then
        match read_text fs path with
        | Ok content =>
            if existsb (fun kw => Str.contains kw (Str.lower content))
                       ["vmware"; "virtualbox"; "qemu"]
            then ["file"] else vm_file_scan fs rest
        | Raise _ => vm_file_scan fs rest
        end
      else vm_file_scan fs rest
  end.

Definition vm_indicators `{Runtime} (h : Host) (fs : file_system) : list string :=
  vm_mac_indicator h ++ vm_platform_indicator h ++ vm_file_scan fs vm_paths.

Definition is_virtual_machine `{Runtime} (h : Host) (fs : file_system) : bool :=
  (2 <=? length (vm_indicators h fs))%nat.

Definition sandbox_users : list string :=
  ["sandbox"; "virus"; "malware"; "test"; "sample"; "analysis"].

Definition sandbox_username_indicator (h : Host) : list string :=
  match getpass_getuser h with
  | Ok user =>
      if existsb (fun su => Str.contains su (Str.lower user)) sandbox_users
      then ["username"] else []
  | Raise _ => []
  end.

Definition sandbox_process_indicator (h : Host) : list string :=
  match psutil_pids h with
  | Ok pids => if (length pids <? 50)%nat then ["process_count"] else []
  | Raise _ => []
  end.

Definition sandbox_disk_indicator (h : Host) : list string :=
  match disk_usage_total h with
  | Ok total => if total <? 60 * 1024 * 1024 * 1024 then ["disk_size"] else []
  | Raise _ => []
  end.

Definition sandbox_indicators (h : Host) : list string :=
  sandbox_username_indicator h ++ sandbox_process_indicator h ++ sandbox_disk_indicator h.

Definition is_sandbox (h : Host) : bool :=
  (2 <=? length (sandbox_indicators h))%nat.

End EnvironmentChecker.

(** ** Certificate pinning ([CertificatePinningAdapter]) *)

Module CertificatePinningAdapter.

Record t : Type := {
  cert_fingerprint : option string;
  cert_path : option string;
  skip_verify : bool;
  _expected_fingerprint : option string
}.

(** Truth value of an [Optional[str]]. *)
Definition str_truthy (o : option string) : bool :=
  match o with
  | Some s => truthy (VStr s)
  | None => false
  end.

(** The pinned value as [__init__] stores it: upper-case, drop a leading
    ["SHA256:"], drop the colons, lower-case. *)
Definition normalize_fingerprint (cert_fingerprint : string) : string :=
  let fp := Str.upper cert_fingerprint in
  let fp := if Str.startswith fp "SHA256:" then Str.drop 7 fp else fp in
  Str.lower (Str.replace_char ":" "" fp).

Definition _calculate_cert_fingerprint `{Runtime} (fs : file_system) (path : string)
  : result string :=
  cert_data ← of_option FileNotFoundError (fs !! path);
  if CRYPTO_AVAILABLE then
    fingerprint ← of_option ValueError (x509_fingerprint cert_data);
    Ok (Str.hex fingerprint)
  else Ok (Str.hex (sha256 cert_data)).

Definition cert_file_usable (fs : file_system) (cert_path : option string) : bool :=
  match cert_path with
  | Some path => truthy (VStr path) && path_exists fs path
  | None => false
  end.

Definition __init__ `{Runtime} (fs : file_system)
    (cert_fingerprint cert_path : option string) (skip_verify : bool) : result t :=
  let expected :=
    match cert_fingerprint with
    | Some fp => if truthy (VStr fp) then Some (normalize_fingerprint fp) else None
    | None => None
    end in
  expected ←
    (if cert_file_usable fs cert_path then
       fp ← _calculate_cert_fingerprint fs (default "" cert_path);
       Ok (Some fp)
     else Ok expected);
  Ok {| cert_fingerprint := cert_fingerprint; cert_path := cert_path;
        skip_verify := skip_verify; _expected_fingerprint := expected |}.

(** [urlparse(url)]: the parts the check reads. *)
Record ParsedUrl : Type := {
  scheme : string;
  hostname : option string;
  port : option Z
}.

(** The secondary TLS handshake to [(hostname, port)]: the peer's leaf
    certificate in DER form, or nothing when the connection or the handshake
    fails. *)
Definition tls_probe : Type := option string -> Z -> option bytes.

(** [parsed.port or 443] *)
Definition port_or_443 (url : ParsedUrl) : Z :=
  match port url with
  | Some p => if p =? 0 then 443 else p
  | None => 443
  end.

Definition _verify_certificate_fingerprint `{Runtime}
    (self : t) (url : ParsedUrl) (tls : tls_probe) : result unit :=
  if negb (String.eqb (scheme url) "https") then Ok tt
  else
    let hostname := hostname url in
    let port := port_or_443 url in
    match tls hostname port with
    | Some cert_der =>
        let actual_fingerprint := Str.hex (sha256 cert_der) in
        if bool_decide (Some actual_fingerprint = _expected_fingerprint self)
        then Ok tt
        else Raise CertificatePinningError
    | None => Ok tt
    end.

(** The [verify] argument handed to [HTTPAdapter.send]. *)
Inductive verify_arg : Type :=
| VerifyDefault
| VerifyOff
| VerifyCA (path : string).

Record Response : Type := { status_code : Z; body : bytes }.

Definition send `{Runtime} (self : t) (fs : file_system) (url : ParsedUrl)
    (super_send : ParsedUrl -> verify_arg -> result Response) (tls : tls_probe)
  : result Response :=
  let verify :=
    if skip_verify self then VerifyOff
    else if cert_file_usable fs (cert_path self) then VerifyCA (default "" (cert_path self))
    else VerifyDefault in
  response ← super_send url verify;
  _ ← (if str_truthy (_expected_fingerprint self) && negb (skip_verify self)
       then _verify_certificate_fingerprint self url tls
       else Ok tt);
  Ok response.

(** [fingerprint[i:i+2] for i in range(0, len(fingerprint), 2)] *)
Fixpoint pairs (s : string) : list string :=
  match s with
  | EmptyString => []
  | String a EmptyString => [String a EmptyString]
  | String a (String b rest) => String a (String b EmptyString) :: pairs rest
  end.

(** [get_server_certificate_fingerprint]: the display form of a leaf
    certificate's fingerprint, ["SHA256:AB:CD:..."]. *)
Definition get_server_certificate_fingerprint `{Runtime} (cert_der : bytes) : string :=
  let fingerprint := Str.hex (sha256 cert_der) in
  let formatted := Str.join ":" (List.map Str.upper (pairs fingerprint)) in
  ("SHA256:" ++ formatted)%string.

End CertificatePinningAdapter.

(** ** Encryption of the cached record ([CacheEncryption]) *)

Module CacheEncryption.

Record t : Type := {
  machine_id : string;
  app_key : string;
  (** the key of the [Fernet] object, when there is one *)
  _fernet : option bytes
}.

Definition _init_fernet `{Runtime} (machine_id app_key : string) : bytes :=
  let salt := firstn 16 (sha256 (str_encode app_key)) in
  urlsafe_b64encode (pbkdf2_hmac_sha256 32 salt 100000 (str_encode machine_id)).

Definition __init__ `{Runtime} (machine_id app_key : string) : t :=
  {| machine_id := machine_id; app_key := app_key;
     _fernet := if CRYPTO_AVAILABLE then Some (_init_fernet machine_id app_key) else None |}.

(** The key of the XOR stream. *)
Definition xor_key `{Runtime} (self : t) : bytes :=
  sha256 (str_encode (machine_id self ++ app_key self)%string).

(** [key[i % len(key)]] *)
Definition key_at (key : bytes) (i : nat) : result byte :=
  match key with
  | [] => Raise ZeroDivisionError
  | _ => Ok (nth (i mod length key) key x00)
  end.

(** [for i, char in enumerate(data): result.append(char ^ key[i % len(key)])],
    from index [i] on *)
Fixpoint xor_stream (key : bytes) (i : nat) (data : bytes) : result bytes :=
  match data with
  | [] => Ok []
  | char :: rest =>
      k ← key_at key i;
      rest' ← xor_stream key (S i) rest;
      Ok (Bytes.xor char k :: rest')
  end.

Definition _simple_obfuscate `{Runtime} (self : t) (data : string) : result string :=
  result ← xor_stream (xor_key self) 0 (str_encode data);
  Ok (b64encode result).

Definition _simple_deobfuscate `{Runtime} (self : t) (data : string) : result string :=
  decoded ← of_option Base64Error (b64decode data);
  result ← xor_stream (xor_key self) 0 decoded;
  of_option UnicodeDecodeError (bytes_decode result).

(** The Fernet object in use: [CRYPTO_AVAILABLE and self._fernet]. *)
Definition fernet_in_use `{Runtime} (self : t) : option bytes :=
  if CRYPTO_AVAILABLE then _fernet self else None.

(** [entropy] is the IV and timestamp that [Fernet.encrypt] draws. *)
Definition encrypt `{Runtime} (self : t) (entropy : bytes) (data : string) : result string :=
  match fernet_in_use self with
  | None => _simple_obfuscate self data
  | Some key => Ok (b64encode (fernet_encrypt key entropy (str_encode data)))
  end.

(** The body of the outer [try] of [decrypt]. *)
Definition decrypt_primary `{Runtime} (key : bytes) (encrypted_data : string) : result string :=
  decoded ← of_option Base64Error (b64decode encrypted_data);
  decrypted ← of_option InvalidToken (fernet_decrypt key decoded);
  of_option UnicodeDecodeError (bytes_decode decrypted).

Definition decrypt `{Runtime} (self : t) (encrypted_data : string) : result string :=
  match fernet_in_use self with
  | None => _simple_deobfuscate self encrypted_data
  | Some key =>
      match decrypt_primary key encrypted_data with
      | Ok data => Ok data
      | Raise _ =>
          match _simple_deobfuscate self encrypted_data with
          | Ok data => Ok data
          | Raise _ => Raise (LicenseError MsgCacheDecrypt)
          end
      end
  end.

End CacheEncryption.

(** What the embedding assumes of the runtime: decoding undoes encoding,
    Fernet decrypts what it encrypted, and a SHA-256 digest has 32 bytes. *)
Class RuntimeLaws (R : Runtime) : Prop := {
  bytes_decode_encode : forall s, bytes_decode (str_encode s) = Some s;
  b64decode_encode : forall b, b64decode (b64encode b) = Some b;
  fernet_decrypt_encrypt : forall key entropy data,
    fernet_decrypt key (fernet_encrypt key entropy data) = Some data;
  sha256_length : forall b, length (sha256 b) = 32%nat
}.

(** ** The license client ([LicenseClient]) *)

Module LicenseClient.

(** The keyword arguments of the constructor. *)
Record Config : Type := {
  cfg_server_url : string;
  cfg_app_key : string;
  cfg_cache_dir : option string;
  cfg_heartbeat_interval : Z;
  cfg_offline_grace_days : Z;
  cfg_encrypt_cache : bool;
  cfg_cert_fingerprint : option string;
  cfg_cert_path : option string;
  cfg_skip_verify : bool;
  cfg_public_key_pem : option string;
  cfg_require_signature : bool;
  cfg_signature_time_window : Z;
  cfg_timeout : Z;
  cfg_max_retries : Z
}.

(** The signature defaults: the other arguments have no use for one here. *)
Definition default_config (server_url app_key : string) : Config :=
  {| cfg_server_url := server_url; cfg_app_key := app_key; cfg_cache_dir := None;
     cfg_heartbeat_interval := 3600; cfg_offline_grace_days := 7;
     cfg_encrypt_cache := true; cfg_cert_fingerprint := None; cfg_cert_path := None;
     cfg_skip_verify := false; cfg_public_key_pem := None;
     cfg_require_signature := false; cfg_signature_time_window := 300;
     cfg_timeout := 30; cfg_max_retries := 3 |}.

Record t : Type := {
  server_url : string;
  app_key : string;
  cache_dir : string;
  heartbeat_interval : Z;
  offline_grace_days : Z;
  encrypt_cache : bool;
  timeout : Z;
  max_retries : Z;
  cert_fingerprint : option string;
  cert_path : option string;
  skip_verify : bool;
  public_key_pem : option string;
  require_signature : bool;
  signature_time_window : Z;
  _public_key : option RSAPublicKey;
  (** [None] is [VNone] *)
  _license_info : value;
  (** the device identity, fixed for the life of the object *)
  _machine_id : string;
  (** [self._heartbeat_thread and self._heartbeat_thread.is_alive()] *)
  _heartbeat_thread : bool;
  _stop_heartbeat : bool;
  _encryption : option CacheEncryption.t;
  _session : option CertificatePinningAdapter.t;
  (** what [_get_device_info] reports *)
  device_info : Py.dict
}.

Definition set_license_info (v : value) (self : t) : t :=
  {| server_url := server_url self; app_key := app_key self; cache_dir := cache_dir self;
     heartbeat_interval := heartbeat_interval self;
     offline_grace_days := offline_grace_days self; encrypt_cache := encrypt_cache self;
     timeout := timeout self; max_retries := max_retries self;
     cert_fingerprint := cert_fingerprint self; cert_path := cert_path self;
     skip_verify := skip_verify self; public_key_pem := public_key_pem self;
     require_signature := require_signature self;
     signature_time_window := signature_time_window self;
     _public_key := _public_key self; _license_info := v;
     _machine_id := _machine_id self; _heartbeat_thread := _heartbeat_thread self;
     _stop_heartbeat := _stop_heartbeat self; _encryption := _encryption self;
     _session := _session self; device_info := device_info self |}.

Definition set_heartbeat (thread stop : bool) (self : t) : t :=
  {| server_url := server_url self; app_key := app_key self; cache_dir := cache_dir self;
     heartbeat_interval := heartbeat_interval self;
     offline_grace_days := offline_grace_days self; encrypt_cache := encrypt_cache self;
     timeout := timeout self; max_retries := max_retries self;
     cert_fingerprint := cert_fingerprint self; cert_path := cert_path self;
     skip_verify := skip_verify self; public_key_pem := public_key_pem self;
     require_signature := require_signature self;
     signature_time_window := signature_time_window self;
     _public_key := _public_key self; _license_info := _license_info self;
     _machine_id := _machine_id self; _heartbeat_thread := thread;
     _stop_heartbeat := stop; _encryption := _encryption self;
     _session := _session self; device_info := device_info self |}.

(** Assignment to the three signature attributes. *)
Definition set_signature (pem : option string) (require : bool)
    (key : option RSAPublicKey) (self : t) : t :=
  {| server_url := server_url self; app_key := app_key self; cache_dir := cache_dir self;
     heartbeat_interval := heartbeat_interval self;
     offline_grace_days := offline_grace_days self; encrypt_cache := encrypt_cache self;
     timeout := timeout self; max_retries := max_retries self;
     cert_fingerprint := cert_fingerprint self; cert_path := cert_path self;
     skip_verify := skip_verify self; public_key_pem := pem;
     require_signature := require;
     signature_time_window := signature_time_window self;
     _public_key := key; _license_info := _license_info self;
     _machine_id := _machine_id self; _heartbeat_thread := _heartbeat_thread self;
     _stop_heartbeat := _stop_heartbeat self; _encryption := _encryption self;
     _session := _session self; device_info := device_info self |}.

(** *** The world a client acts on *)

Record Request : Type := {
  req_method : string;
  req_url : string;
  req_data : value
}.

(** What [self._session.get/post] followed by [resp.json()] does: it raises,
    or yields the decoded body. *)
Inductive http_outcome : Type :=
| HttpRaises (e : exn)
| HttpJson (body : value).

(** The network at the time of a call. *)
Definition network : Type := Request -> http_outcome.

Record World : Type := {
  fs : file_system;
  (** the requests sent so far, latest first *)
  net_log : list Request
}.

Definition set_fs (f : file_system) (w : World) : World :=
  {| fs := f; net_log := net_log w |}.

Definition log_request (r : Request) (w : World) : World :=
  {| fs := fs w; net_log := r :: net_log w |}.

(** A method: it runs on the object and the world, returns or raises, and
    leaves both changed. *)
Definition M (A : Type) : Type := t * World -> result A * (t * World).

Definition ret {A} (a : A) : M A := fun s => (Ok a, s).

Definition raise {A} (e : exn) : M A := fun s => (Raise e, s).

Definition bindM {A B} (m : M A) (k : A -> M B) : M B :=
  fun s => match m s with
           | (Ok a, s') => k a s'
           | (Raise e, s') => (Raise e, s')
           end.

Definition lift {A} (r : result A) : M A := fun s => (r, s).

Definition get_self : M t := fun s => (Ok (fst s), s).

Definition get_world : M World := fun s => (Ok (snd s), s).

Definition modify_self (f : t -> t) : M unit := fun s => (Ok tt, (f (fst s), snd s)).

Definition modify_world (f : World -> World) : M unit :=
  fun s => (Ok tt, (fst s, f (snd s))).

(** [try: m  except LicenseError: return v] *)
Definition except_license_error {A} (m : M A) (v : A) : M A :=
  fun s => match m s with
           | (Raise (LicenseError _), s') => (Ok v, s')
           | other => other
           end.

(** [try: m  except Exception: h] *)
Definition except_any {A} (m : M A) (h : M A) : M A :=
  fun s => match m s with
           | (Raise _, s') => h s'
           | other => other
           end.

#[global] Instance M_ret : MRet M := @ret.
#[global] Instance M_bind : MBind M := fun A B k m => bindM m k.

(** *** The cache file *)

Definition _get_cache_path `{Runtime} (self : t) : string :=
  let suffix := if encrypt_cache self then ".enc" else ".json" in
  path_join (cache_dir self) (app_key self ++ suffix)%string.

Definition old_cache_path `{Runtime} (self : t) : string :=
  path_join (cache_dir self) (app_key self ++ ".json")%string.

(** [if self.encrypt_cache and self._encryption] *)
Definition cache_cipher (self : t) : option CacheEncryption.t :=
  if encrypt_cache self then _encryption self else None.

Definition _save_cache `{Runtime} (entropy : bytes) : M unit :=
  self ← get_self;
  if truthy (_license_info self) then
    let cache_path := _get_cache_path self in
    let content := json_dumps (_license_info self) in
    content ← lift (match cache_cipher self with
                    | Some enc => CacheEncryption.encrypt enc entropy content
                    | None => Ok content
                    end);
    modify_world (fun w => set_fs (<[cache_path := str_encode content]> (fs w)) w)
  else ret tt.

(** Reading the cache file: read the text, decrypt it when the cache is
    encrypted, parse it. *)
Definition read_cache `{Runtime} (self : t) (fs : file_system) : result value :=
  content ← read_text fs (_get_cache_path self);
  content ← (match cache_cipher self with
             | Some enc => CacheEncryption.decrypt enc content
             | None => Ok content
             end);
  of_option JSONDecodeError (json_loads content).

(** Reading a legacy plaintext cache file: [json.load(f)]. *)
Definition read_old_cache `{Runtime} (self : t) (fs : file_system) : result value :=
  content ← read_text fs (old_cache_path self);
  of_option JSONDecodeError (json_loads content).

Definition _load_cache `{Runtime} (entropy : bytes) : M unit :=
  self ← get_self;
  w ← get_world;
  let cache_path := _get_cache_path self in
  let old_cache_path := old_cache_path self in
  if path_exists (fs w) cache_path then
    except_any
      (info ← lift (read_cache self (fs w));
       modify_self (set_license_info info))
      (modify_self (set_license_info VNone))
  else if path_exists (fs w) old_cache_path && encrypt_cache self then
    except_any
      (info ← lift (read_old_cache self (fs w));
       _ ← modify_self (set_license_info info);
       _ ← _save_cache entropy;
       modify_world (fun w => set_fs (delete old_cache_path (fs w)) w))
      (modify_self (set_license_info VNone))
  else ret tt.

Definition _clear_cache `{Runtime} : M unit :=
  self ← get_self;
  _ ← modify_world (fun w => set_fs (delete (_get_cache_path self) (fs w)) w);
  _ ← modify_world (fun w => set_fs (delete (old_cache_path self) (fs w)) w);
  modify_self (set_license_info VNone).

(** *** Requests *)

(** [v.get(k, default)]: only a dict has the method. *)
Definition attr_get (v : value) (k : string) (default : value) : result value :=
  match v with
  | VDict d => Ok (dict_get k d default)
  | _ => Raise AttributeError
  end.

Definition _request (method endpoint : string) (data : value) (net : network) : M value :=
  self ← get_self;
  let req := {| req_method := method;
                req_url := (server_url self ++ "/api/client" ++ endpoint)%string;
                req_data := data |} in
  _ ← modify_world (log_request req);
  match net req with
  | HttpRaises CertificatePinningError => raise CertificatePinningError
  | HttpRaises RequestException => raise (LicenseError MsgNetwork)
  | HttpRaises e => raise e
  | HttpJson result =>
      code ← lift (attr_get result "code" VNone);
      if ne_zero code then
        message ← lift (attr_get result "message" (VStr "请求失败"));
        raise (LicenseError (MsgServer message))
      else lift (attr_get result "data" (VDict []))
  end.

Definition _start_heartbeat : M unit :=
  self ← get_self;
  if _heartbeat_thread self then ret tt
  else modify_self (set_heartbeat true false).

(** [{**result, k1: v1, k2: v2, k3: v3}] *)
Definition unpack_with (mapping : value) (extra : Py.dict) : result Py.dict :=
  match mapping with
  | VDict d => Ok (dict_update d extra)
  | _ => Raise TypeError
  end.

Definition activate `{Runtime} (license_key : string) (now : Q) (net : network)
    (entropy : bytes) : M value :=
  self ← get_self;
  let data := VDict [("app_key", VStr (app_key self));
                     ("license_key", VStr license_key);
                     ("machine_id", VStr (_machine_id self));
                     ("device_info", VDict (device_info self))] in
  result ← _request "POST" "/auth/activate" data net;
  info ← lift (unpack_with result [("license_key", VStr license_key);
                                   ("activated_at", VFloat now);
                                   ("last_verified_at", VFloat now)]);
  _ ← modify_self (set_license_info (VDict info));
  _ ← _save_cache entropy;
  _ ← _start_heartbeat;
  ret result.

Definition _hash_password `{Runtime} (password email : string) : string :=
  let salted := (password ++ ":" ++ Str.lower email ++ ":license_salt_v1")%string in
  Str.hex (sha256 (str_encode salted)).

Definition login `{Runtime} (email password : string) (now : Q) (net : network)
    (entropy : bytes) : M value :=
  self ← get_self;
  let hashed_password := _hash_password password email in
  let data := VDict [("app_key", VStr (app_key self));
                     ("email", VStr email);
                     ("password", VStr hashed_password);
                     ("password_hashed", VBool true);
                     ("machine_id", VStr (_machine_id self));
                     ("device_info", VDict (device_info self))] in
  result ← _request "POST" "/auth/login" data net;
  info ← lift (unpack_with result [("email", VStr email);
                                   ("login_at", VFloat now);
                                   ("last_verified_at", VFloat now)]);
  _ ← modify_self (set_license_info (VDict info));
  _ ← _save_cache entropy;
  _ ← _start_heartbeat;
  ret result.

Definition register `{Runtime} (email password name : string) (net : network) : M value :=
  self ← get_self;
  let hashed_password := _hash_password password email in
  let data := VDict [("app_key", VStr (app_key self));
                     ("email", VStr email);
                     ("password", VStr hashed_password);
                     ("password_hashed", VBool true);
                     ("name", VStr name)] in
  _request "POST" "/auth/register" data net.

(** [d[k] = v] on the object in [d] *)
Definition set_item (d : value) (k : string) (v : value) : result value :=
  match d with
  | VDict items => Ok (VDict (dict_set k v items))
  | _ => Raise TypeError
  end.

(** [d.update(other)].  An empty sequence updates nothing; sequences of
    pairs are outside the model and raise like the other non-mappings. *)
Definition py_update (d other : value) : result value :=
  match d, other with
  | VDict items, VDict o => Ok (VDict (dict_update items o))
  | VDict items, VList [] => Ok d
  | VDict items, VStr EmptyString => Ok d
  | VDict _, _ => Raise TypeError
  | _, _ => Raise AttributeError
  end.

Definition change_password `{Runtime} (old_password new_password : string)
    (email : option string) (net : network) : M value :=
  self ← get_self;
  user_email ← lift (match email with
                     | Some e => if truthy (VStr e) then Ok (VStr e)
                                 else if truthy (_license_info self)
                                      then attr_get (_license_info self) "email" VNone
                                      else Ok VNone
                     | None => if truthy (_license_info self)
                               then attr_get (_license_info self) "email" VNone
                               else Ok VNone
                     end);
  if negb (truthy user_email) then raise (LicenseError MsgNeedEmail)
  else
    match user_email with
    | VStr user_email =>
        let data := VDict [("app_key", VStr (app_key self));
                           ("old_password", VStr (_hash_password old_password user_email));
                           ("new_password", VStr (_hash_password new_password user_email));
                           ("password_hashed", VBool true);
                           ("machine_id", VStr (_machine_id self))] in
        _request "POST" "/auth/change-password" data net
    | _ => raise AttributeError
    end.

Definition verify `{Runtime} (now : Q) (net : network) (entropy : bytes) : M value :=
  except_license_error
    (self ← get_self;
     let data := VDict [("app_key", VStr (app_key self));
                        ("machine_id", VStr (_machine_id self))] in
     result ← _request "POST" "/auth/verify" data net;
     self ← get_self;
     _ ← (if truthy (_license_info self) then
            info ← lift (set_item (_license_info self) "last_verified_at" (VFloat now));
            _ ← modify_self (set_license_info info);
            info ← lift (py_update info result);
            _ ← modify_self (set_license_info info);
            _save_cache entropy
          else ret tt);
     lift (attr_get result "valid" (VBool false)))
    (VBool false).

Definition heartbeat `{Runtime} (now : Q) (net : network) (entropy : bytes) : M value :=
  except_license_error
    (self ← get_self;
     let data := VDict [("app_key", VStr (app_key self));
                        ("machine_id", VStr (_machine_id self));
                        ("app_version", dict_get "app_version" (device_info self) (VStr ""))] in
     result ← _request "POST" "/auth/heartbeat" data net;
     self ← get_self;
     _ ← (if truthy (_license_info self) then
            info ← lift (set_item (_license_info self) "last_verified_at" (VFloat now));
            _ ← modify_self (set_license_info info);
            _save_cache entropy
          else ret tt);
     lift (attr_get result "valid" (VBool false)))
    (VBool false).

Definition deactivate `{Runtime} (net : network) : M value :=
  except_license_error
    (self ← get_self;
     let data := VDict [("app_key", VStr (app_key self));
                        ("machine_id", VStr (_machine_id self))] in
     _ ← _request "POST" "/auth/deactivate" data net;
     _ ← _clear_cache;
     _ ← modify_self (fun self => set_heartbeat (_heartbeat_thread self) true self);
     ret (VBool true))
    (VBool false).

(** The expiry test of [is_valid]: true when the method returns False
    because [expire_at] lies in the past.  Only a string is parsed; a parse
    that raises is swallowed by the bare [except]. *)
Definition expired `{Runtime} (now : Q) (info : Py.dict) : bool :=
  let expire_at := dict_get "expire_at" info VNone in
  if truthy expire_at then
    match expire_at with
    | VStr s =>
        match fromisoformat_timestamp (Str.replace_char "Z" "+00:00" s) with
        | Some expire_time => negb (Qle_bool now expire_time)
        | None => false
        end
    | _ => false
    end
  else false.

(** [(time.time() - last_verified) / 86400] *)
Definition offline_days (now last_verified : Q) : Q :=
  ((now - last_verified) / 86400)%Q.

(** The last four lines of [is_valid]. *)
Definition offline_gate `{Runtime} (info : Py.dict) (now : Q) (net : network)
    (entropy : bytes) : M value :=
  self ← get_self;
  last_verified ← lift (as_number (dict_get "last_verified_at" info (VInt 0)));
  if negb (Qle_bool (offline_days now last_verified) (inject_Z (offline_grace_days self)))
  then verify now net entropy
  else ret (VBool true).

Definition is_valid `{Runtime} (now : Q) (net : network) (entropy : bytes) : M value :=
  self ← get_self;
  if negb (truthy (_license_info self)) then ret (VBool false)
  else
    valid ← lift (attr_get (_license_info self) "valid" (VBool false));
    if negb (truthy valid) then ret (VBool false)
    else
      match _license_info self with
      | VDict info =>
          if expired now info then ret (VBool false)
          else offline_gate info now net entropy
      | _ => raise AttributeError
      end.

Definition check_update (net : network) : M value :=
  except_license_error
    (self ← get_self;
     _request "GET" "/releases/latest" (VDict [("app_key", VStr (app_key self))]) net)
    VNone.

Definition close : M unit :=
  modify_self (fun self => set_heartbeat (_heartbeat_thread self) true self).

(** *** Response signatures *)

(** [int(x)] *)
Definition py_int `{Runtime} (v : value) : result Z :=
  match v with
  | VInt z => Ok z
  | VBool b => Ok (if b then 1 else 0)
  | VFloat q => Ok (Qtrunc q)
  | VStr s => of_option ValueError (int_of_str s)
  | _ => Raise TypeError
  end.

(** The timestamp block of [_verify_response_signature]. *)
Definition replay_check `{Runtime} (self : t) (now : Q) (data : Py.dict) : result unit :=
  if 0 <? signature_time_window self then
    let timestamp := dict_get "timestamp" data VNone in
    if truthy timestamp then
      let current_time := Qtrunc now in
      issued ← py_int timestamp;
      if signature_time_window self <? Z.abs (current_time - issued)
      then Raise SignatureExpiredError
      else Ok tt
    else Ok tt
  else Ok tt.

Definition _canonical_json `{Runtime} (data : Py.dict) : bytes :=
  str_encode (json_dumps_sorted data).

(** The body of the [try] of [_verify_signature]. *)
Definition check_signature `{Runtime} (self : t) (data : bytes) (signature_base64 : value)
  : result unit :=
  encoded ← (match signature_base64 with
             | VStr s => Ok s
             | _ => Raise TypeError
             end);
  signature ← of_option Base64Error (b64decode encoded);
  key ← of_option AttributeError (_public_key self);
  if rsa_verify key signature data then Ok tt else Raise InvalidSignature.

Definition _verify_signature `{Runtime} (self : t) (data : bytes) (signature_base64 : value)
  : result unit :=
  if negb CRYPTO_AVAILABLE then Raise (LicenseError MsgCryptoMissing)
  else
    match check_signature self data signature_base64 with
    | Ok _ => Ok tt
    | Raise _ => Raise SignatureVerificationError
    end.

(** [{k: v for k, v in data.items() if k != 'signature'}] *)
Definition without_signature (data : Py.dict) : Py.dict :=
  List.filter (fun kv => negb (String.eqb (fst kv) "signature")) data.

Definition _verify_response_signature `{Runtime} (self : t) (now : Q) (data : Py.dict)
    (signature : value) : result unit :=
  match _public_key self with
  | None =>
      if require_signature self then Raise (LicenseError MsgNoPublicKey) else Ok tt
  | Some _ =>
      if negb (truthy signature) then
        if require_signature self then Raise SignatureMissingError else Ok tt
      else
        _ ← replay_check self now data;
        let data_to_verify := without_signature data in
        let data_bytes := _canonical_json data_to_verify in
        _verify_signature self data_bytes signature
  end.

(** A valid signature for [data] under [key]: base64 text of an RSA
    PKCS#1 v1.5 / SHA-256 signature over the canonical bytes of [data]
    without its signature field. *)
Definition signature_valid `{Runtime} (key : RSAPublicKey) (data : Py.dict)
    (signature : value) : Prop :=
  exists encoded raw,
    signature = VStr encoded /\
    b64decode encoded = Some raw /\
    rsa_verify key raw (_canonical_json (without_signature data)) = true.

Definition _request_with_verification `{Runtime} (method endpoint : string) (data : value)
    (now : Q) (net : network) : M value :=
  result ← _request method endpoint data net;
  signature ← lift (attr_get result "signature" (VStr ""));
  self ← get_self;
  _ ← lift (match result with
            | VDict d => _verify_response_signature self now d signature
            | _ => Raise AttributeError
            end);
  ret result.

Definition is_signature_enabled (self : t) : bool :=
  bool_decide (is_Some (_public_key self)) && require_signature self.

Definition _init_public_key `{Runtime} : M unit :=
  self ← get_self;
  if negb CRYPTO_AVAILABLE then ret tt
  else
    match public_key_pem self with
    | Some pem =>
        match load_pem_public_key (str_encode pem) with
        | Some key =>
            modify_self (set_signature (public_key_pem self) (require_signature self) (Some key))
        | None => raise (LicenseError MsgInvalidPublicKey)
        end
    | None => raise (LicenseError MsgInvalidPublicKey)
    end.

Definition set_public_key `{Runtime} (public_key_pem : string) : M unit :=
  _ ← modify_self (fun self => set_signature (Some public_key_pem) true (_public_key self) self);
  _init_public_key.

(** *** Construction *)

(** [s.rstrip('/')] *)
Fixpoint rstrip_slash (s : string) : string :=
  match s with
  | EmptyString => EmptyString
  | String a rest =>
      let rest' := rstrip_slash rest in
      if String.eqb rest' "" && Ascii.eqb a "/" then EmptyString else String a rest'
  end.

(** The object as the assignments of [__init__] leave it, before the public
    key, the session and the cache are set up. *)
Definition fresh `{Runtime} (cfg : Config) (machine_id home : string) (device_info : Py.dict)
  : t :=
  {| server_url := rstrip_slash (cfg_server_url cfg);
     app_key := cfg_app_key cfg;
     cache_dir := match cfg_cache_dir cfg with
                  | Some d => if truthy (VStr d) then d else path_join home ".license_cache"
                  | None => path_join home ".license_cache"
                  end;
     heartbeat_interval := cfg_heartbeat_interval cfg;
     offline_grace_days := cfg_offline_grace_days cfg;
     encrypt_cache := cfg_encrypt_cache cfg;
     timeout := cfg_timeout cfg;
     max_retries := cfg_max_retries cfg;
     cert_fingerprint := cfg_cert_fingerprint cfg;
     cert_path := cfg_cert_path cfg;
     skip_verify := cfg_skip_verify cfg;
     public_key_pem := cfg_public_key_pem cfg;
     require_signature :=
       cfg_require_signature cfg || bool_decide (is_Some (cfg_public_key_pem cfg));
     signature_time_window := cfg_signature_time_window cfg;
     _public_key := None;
     _license_info := VNone;
     _machine_id := machine_id;
     _heartbeat_thread := false;
     _stop_heartbeat := false;
     _encryption := None;
     _session := None;
     device_info := device_info |}.

Definition set_encryption (enc : option CacheEncryption.t) (self : t) : t :=
  {| server_url := server_url self; app_key := app_key self; cache_dir := cache_dir self;
     heartbeat_interval := heartbeat_interval self;
     offline_grace_days := offline_grace_days self; encrypt_cache := encrypt_cache self;
     timeout := timeout self; max_retries := max_retries self;
     cert_fingerprint := cert_fingerprint self; cert_path := cert_path self;
     skip_verify := skip_verify self; public_key_pem := public_key_pem self;
     require_signature := require_signature self;
     signature_time_window := signature_time_window self;
     _public_key := _public_key self; _license_info := _license_info self;
     _machine_id := _machine_id self; _heartbeat_thread := _heartbeat_thread self;
     _stop_heartbeat := _stop_heartbeat self; _encryption := enc;
     _session := _session self; device_info := device_info self |}.

Definition set_session (adapter : option CertificatePinningAdapter.t) (self : t) : t :=
  {| server_url := server_url self; app_key := app_key self; cache_dir := cache_dir self;
     heartbeat_interval := heartbeat_interval self;
     offline_grace_days := offline_grace_days self; encrypt_cache := encrypt_cache self;
     timeout := timeout self; max_retries := max_retries self;
     cert_fingerprint := cert_fingerprint self; cert_path := cert_path self;
     skip_verify := skip_verify self; public_key_pem := public_key_pem self;
     require_signature := require_signature self;
     signature_time_window := signature_time_window self;
     _public_key := _public_key self; _license_info := _license_info self;
     _machine_id := _machine_id self; _heartbeat_thread := _heartbeat_thread self;
     _stop_heartbeat := _stop_heartbeat self; _encryption := _encryption self;
     _session := adapter; device_info := device_info self |}.

Definition _init_session `{Runtime} : M unit :=
  self ← get_self;
  w ← get_world;
  adapter ← lift (CertificatePinningAdapter.__init__ (fs w) (cert_fingerprint self)
                    (cert_path self) (skip_verify self));
  modify_self (set_session (Some adapter)).

(** The rest of [__init__], run on the fresh object. *)
Definition setup `{Runtime} (entropy : bytes) : M unit :=
  self ← get_self;
  _ ← (if CertificatePinningAdapter.str_truthy (public_key_pem self) && CRYPTO_AVAILABLE
       then _init_public_key else ret tt);
  _ ← (if encrypt_cache self
       then modify_self (set_encryption
              (Some (CacheEncryption.__init__ (_machine_id self) (app_key self))))
       else ret tt);
  _ ← _init_session;
  _load_cache entropy.

(** [LicenseClient(server_url, app_key, **kwargs)]: the object, or the
    exception the constructor raised. *)
Definition __init__ `{Runtime} (cfg : Config) (machine_id home : string)
    (device_info : Py.dict) (entropy : bytes) (w : World) : result t * World :=
  match setup entropy (fresh cfg machine_id home device_info, w) with
  | (Ok _, (self, w')) => (Ok self, w')
  | (Raise e, (_, w')) => (Raise e, w')
  end.

End LicenseClient.

(** The public interface of a client: one step is one call of a public
    method that can change the object or the world, with any arguments,
    under any clock reading and network.  The getters ([get_features],
    [has_feature], [get_remaining_days], [get_license_info],
    [is_signature_enabled]) change nothing and are left out. *)
Module PublicInterface.
Import LicenseClient.

Inductive call : Type :=
| CallActivate (license_key : string)
| CallLogin (email password : string)
| CallRegister (email password name : string)
| CallChangePassword (old_password new_password : string) (email : option string)
| CallVerify
| CallHeartbeat
| CallDeactivate
| CallIsValid
| CallCheckUpdate
| CallClose
| CallSetPublicKey (public_key_pem : string).

(** The state after a call, whether it returned or raised. *)
Definition after `{Runtime} (c : call) (now : Q) (net : network) (entropy : bytes)
    (s : t * World) : t * World :=
  match c with
  | CallActivate k => snd (activate k now net entropy s)
  | CallLogin e p => snd (login e p now net entropy s)
  | CallRegister e p n => snd (register e p n net s)
  | CallChangePassword o n e => snd (change_password o n e net s)
  | CallVerify => snd (verify now net entropy s)
  | CallHeartbeat => snd (heartbeat now net entropy s)
  | CallDeactivate => snd (deactivate net s)
  | CallIsValid => snd (is_valid now net entropy s)
  | CallCheckUpdate => snd (check_update net s)
  | CallClose => snd (close s)
  | CallSetPublicKey pem => snd (set_public_key pem s)
  end.

(** The states a program can bring a client to: construct it, then call
    public methods. *)
Inductive reachable `{Runtime} : t * World -> Prop :=
| reach_init cfg machine_id home device_info entropy w self w' :
    __init__ cfg machine_id home device_info entropy w = (Ok self, w') ->
    reachable (self, w')
| reach_call s c now net entropy :
    reachable s ->
    reachable (after c now net entropy s).

End PublicInterface.

(** ** The hardening layer ([license_security.py]) *)

Module IntegrityChecker.

Record t : Type := { _file_hashes : list (string * string) }.

Definition _calculate_hash `{Runtime} (fs : file_system) (filepath : string) : string :=
  match fs !! filepath with
  | Some content => Str.hex (sha256 content)
  | None => ""
  end.

(** [current_file] and [client_file] are the paths of the two SDK modules. *)
Definition __init__ `{Runtime} (fs : file_system) (current_file client_file : string) : t :=
  {| _file_hashes :=
       List.map (fun filepath => (filepath, _calculate_hash fs filepath))
                (List.filter (path_exists fs) [current_file; client_file]) |}.

Definition verify `{Runtime} (self : t) (fs : file_system) : bool :=
  forallb (fun entry =>
             if path_exists fs (fst entry)
             then String.eqb (_calculate_hash fs (fst entry)) (snd entry)
             else true)
          (_file_hashes self).

End IntegrityChecker.

Module TimeChecker.

Record t : Type := {
  _last_check_time : Q;
  _cache_file : string
}.

Definition _load_last_time `{Runtime} (self : t) (fs : file_system) : t :=
  if path_exists fs (_cache_file self) then
    match (text ← read_text fs (_cache_file self);
           of_option ValueError (float_of_str text)) with
    | Ok saved_time =>
        if negb (Qle_bool saved_time (_last_check_time self))
        then {| _last_check_time := saved_time; _cache_file := _cache_file self |}
        else self
    | Raise _ => self
    end
  else self.

Definition __init__ `{Runtime} (cache_file : option string) (home : string) (now : Q)
    (fs : file_system) : t :=
  let file := match cache_file with
              | Some f => if truthy (VStr f) then f
                          else path_join (path_join home ".license_cache") ".time_check"
              | None => path_join (path_join home ".license_cache") ".time_check"
              end in
  _load_last_time {| _last_check_time := now; _cache_file := file |} fs.

Definition _save_current_time `{Runtime} (self : t) (now : Q) (fs : file_system)
  : file_system :=
  <[_cache_file self := str_encode (float_str now)]> fs.

(** [check]: false when the clock is more than 300 s behind the watermark. *)
Definition check `{Runtime} (self : t) (now : Q) (fs : file_system)
  : bool * t * file_system :=
  if negb (Qle_bool (_last_check_time self - 300)%Q now) then (false, self, fs)
  else (true,
        {| _last_check_time := now; _cache_file := _cache_file self |},
        _save_current_time self now fs).

End TimeChecker.

Module SecureLicenseClient.
Import LicenseClient.

(** The callables [_setup_validators] registers. *)
Inductive validator : Type :=
| IntegrityVerify   (* self._integrity_checker.verify *)
| TimeCheck         (* self._time_checker.check *)
| LicensePresent    (* lambda: self._client._license_info is not None *)
| ValidFlag         (* lambda: info.get('valid', False) if info else False *).

Record t : Type := {
  _client : LicenseClient.t;
  _integrity_checker : IntegrityChecker.t;
  _time_checker : TimeChecker.t;
  (** [self._validator._validators] and [self._validator._check_results] *)
  _validators : list (string * validator);
  _check_results : Py.dict;
  _check_count : Z;
  _last_full_check : Q;
  _enable_integrity_check : bool
}.

Definition set_client (c : LicenseClient.t) (s : t) : t :=
  {| _client := c; _integrity_checker := _integrity_checker s;
     _time_checker := _time_checker s; _validators := _validators s;
     _check_results := _check_results s; _check_count := _check_count s;
     _last_full_check := _last_full_check s;
     _enable_integrity_check := _enable_integrity_check s |}.

Definition set_time_checker (tc : TimeChecker.t) (s : t) : t :=
  {| _client := _client s; _integrity_checker := _integrity_checker s;
     _time_checker := tc; _validators := _validators s;
     _check_results := _check_results s; _check_count := _check_count s;
     _last_full_check := _last_full_check s;
     _enable_integrity_check := _enable_integrity_check s |}.

Definition set_check_results (r : Py.dict) (s : t) : t :=
  {| _client := _client s; _integrity_checker := _integrity_checker s;
     _time_checker := _time_checker s; _validators := _validators s;
     _check_results := r; _check_count := _check_count s;
     _last_full_check := _last_full_check s;
     _enable_integrity_check := _enable_integrity_check s |}.

Definition set_counters (count : Z) (last : Q) (s : t) : t :=
  {| _client := _client s; _integrity_checker := _integrity_checker s;
     _time_checker := _time_checker s; _validators := _validators s;
     _check_results := _check_results s; _check_count := count;
     _last_full_check := last;
     _enable_integrity_check := _enable_integrity_check s |}.

Definition _setup_validators : list (string * validator) :=
  [("integrity", IntegrityVerify); ("time", TimeCheck);
   ("license", LicensePresent); ("valid_flag", ValidFlag)].

Definition __init__ `{Runtime} (client : LicenseClient.t) (enable_integrity_check : bool)
    (current_file client_file home : string) (now : Q) (fs : file_system) : t :=
  {| _client := client;
     _integrity_checker := IntegrityChecker.__init__ fs current_file client_file;
     _time_checker := TimeChecker.__init__ None home now fs;
     _validators := _setup_validators;
     _check_results := [];
     _check_count := 0;
     _last_full_check := 0;
     _enable_integrity_check := enable_integrity_check |}.

(** [self._time_checker.check()] on the wrapper's state *)
Definition time_check `{Runtime} (now : Q) (s : t) (w : World) : bool * (t * World) :=
  let '(ok, tc, fs') := TimeChecker.check (_time_checker s) now (fs w) in
  (ok, (set_time_checker tc s, set_fs fs' w)).

Definition run_validator `{Runtime} (v : validator) (now : Q) (s : t) (w : World)
  : result value * (t * World) :=
  match v with
  | IntegrityVerify => (Ok (VBool (IntegrityChecker.verify (_integrity_checker s) (fs w))), (s, w))
  | TimeCheck => let '(ok, sw) := time_check now s w in (Ok (VBool ok), sw)
  | LicensePresent =>
      (Ok (VBool (match _license_info (_client s) with VNone => false | _ => true end)), (s, w))
  | ValidFlag =>
      (if truthy (_license_info (_client s))
       then attr_get (_license_info (_client s)) "valid" (VBool false)
       else Ok (VBool false), (s, w))
  end.

(** The loop of [validate_all]: record each outcome, stop at the first
    validator that fails or raises. *)
Fixpoint run_validators `{Runtime} (vs : list (string * validator)) (now : Q)
    (s : t) (w : World) : bool * (t * World) :=
  match vs with
  | [] => (true, (s, w))
  | (name, v) :: rest =>
      match run_validator v now s w with
      | (Ok outcome, (s1, w1)) =>
          let s2 := set_check_results (dict_set name outcome (_check_results s1)) s1 in
          if negb (truthy outcome) then (false, (s2, w1))
          else run_validators rest now s2 w1
      | (Raise _, (s1, w1)) =>
          (false, (set_check_results (dict_set name (VBool false) (_check_results s1)) s1, w1))
      end
  end.

Definition validate_all `{Runtime} (now : Q) (s : t) (w : World) : bool * (t * World) :=
  run_validators (_validators s) now (set_check_results [] s) w.

(** [try: self._client._clear_cache()  except: pass] *)
Definition _on_security_violation `{Runtime} (reason : string) (s : t) (w : World)
  : t * World :=
  match _clear_cache (_client s, w) with
  | (_, (c, w')) => (set_client c s, w')
  end.

Definition _full_security_check `{Runtime} (probe : AntiDebug.Probe) (now : Q)
    (s : t) (w : World) : bool * (t * World) :=
  if AntiDebug.is_debugger_present probe then
    (false, _on_security_violation "debugger_detected" s w)
  else
    let '(ok, (s1, w1)) := time_check now s w in
    if negb ok then (false, _on_security_violation "time_rollback" s1 w1)
    else if _enable_integrity_check s1
            && negb (IntegrityChecker.verify (_integrity_checker s1) (fs w1))
    then (false, _on_security_violation "integrity_failed" s1 w1)
    else
      let '(ok, (s2, w2)) := validate_all now s1 w1 in
      if negb ok then (false, _on_security_violation "validation_failed" s2 w2)
      else (true, (s2, w2)).

(** Whether this call runs the full check: every tenth call, or when the
    last one is more than 300 s old. *)
Definition full_check_due (now : Q) (s : t) : bool :=
  (_check_count s mod 10 =? 0) || negb (Qle_bool (now - _last_full_check s)%Q 300).

(** The body of the hardened [is_valid]. *)
Definition is_valid_body `{Runtime} (probe : AntiDebug.Probe) (now : Q) (net : network)
    (entropy : bytes) (s : t) (w : World) : result value * (t * World) :=
  let s := set_counters (_check_count s + 1) (_last_full_check s) s in
  let run_client (s : t) (w : World) :=
    match LicenseClient.is_valid now net entropy (_client s, w) with
    | (r, (c, w')) => (r, (set_client c s, w'))
    end in
  if full_check_due now s then
    match _full_security_check probe now s w with
    | (false, sw) => (Ok (VBool false), sw)
    | (true, (s', w')) => run_client (set_counters (_check_count s') now s') w'
    end
  else run_client s w.

(** [is_valid] under the [secure_check] decorator.  [entry_probe] is what
    the decorator's debugger test observes, [probe] what the full check
    observes later in the same call. *)
Definition is_valid `{Runtime} (entry_probe probe : AntiDebug.Probe) (now : Q)
    (net : network) (entropy : bytes) (s : t) (w : World) : result value * (t * World) :=
  if AntiDebug.is_debugger_present entry_probe then (Ok (VBool false), (s, w))
  else is_valid_body probe now net entropy s w.

End SecureLicenseClient.

(** ** A small runtime to run the model on concrete inputs

    Encodings are the identity on byte strings, a digest is its input cut
    or zero-padded to 32 bytes, a Fernet token is the plaintext behind the
    version byte [0x80], a signature is the key followed by the signed
    bytes, and the only JSON text is ["{}"]. *)

Module Demo.

Definition pad32 (b : bytes) : bytes := firstn 32 (b ++ repeat x00 32).

Definition bytes_eqb (a b : bytes) : bool :=
  String.eqb (string_of_list_byte a) (string_of_list_byte b).

Definition runtime (crypto : bool) : Runtime := {|
  CRYPTO_AVAILABLE := crypto;
  str_encode := list_byte_of_string;
  bytes_decode := fun b => Some (string_of_list_byte b);
  sha256 := pad32;
  b64encode := string_of_list_byte;
  b64decode := fun s => Some (list_byte_of_string s);
  urlsafe_b64encode := fun b => b;
  pbkdf2_hmac_sha256 := fun _ salt _ password => pad32 (salt ++ password);
  fernet_encrypt := fun _ _ data => x80 :: data;
  fernet_decrypt := fun _ token => match token with
                                   | x80 :: data => Some data
                                   | _ => None
                                   end;
  load_pem_public_key := fun pem => match pem with
                                    | [] => None
                                    | _ => Some {| key_material := pem |}
                                    end;
  x509_fingerprint := fun pem => Some (pad32 pem);
  rsa_verify := fun key signature data => bytes_eqb signature (key_material key ++ data);
  json_loads := fun s => if String.eqb s "{}" then Some (VDict []) else None;
  json_dumps := fun _ => "{}";
  json_dumps_sorted := fun _ => "{}";
  int_of_str := fun _ => None;
  fromisoformat_timestamp := fun _ => None;
  float_str := fun _ => "0";
  float_of_str := fun _ => None;
  path_join := fun dir name => (dir ++ "/" ++ name)%string
|}.

End Demo.

Module DemoClient.
Import LicenseClient.

Definition config (pem : option string) (window : Z) : Config :=
  {| cfg_server_url := "https://license.example/"; cfg_app_key := "app";
     cfg_cache_dir := Some "/cache";
     cfg_heartbeat_interval := 3600; cfg_offline_grace_days := 7;
     cfg_encrypt_cache := true; cfg_cert_fingerprint := None; cfg_cert_path := None;
     cfg_skip_verify := false; cfg_public_key_pem := pem;
     cfg_require_signature := false; cfg_signature_time_window := window;
     cfg_timeout := 30; cfg_max_retries := 3 |}.

(** A client without a public key. *)
Definition plain (crypto : bool) (window : Z) : t :=
  set_encryption
    (Some (CacheEncryption.__init__ (H := Demo.runtime crypto) "machine-0001" "app"))
    (fresh (H := Demo.runtime crypto) (config None window) "machine-0001" "/home/user" []).

(** A client whose public key is the one-byte key ["k"]. *)
Definition signed (window : Z) : t :=
  set_signature (Some "k") true (Some {| key_material := list_byte_of_string "k" |})
    (plain true window).

(** A client holding the record [info]. *)
Definition licensed (crypto : bool) (info : Py.dict) : t :=
  set_license_info (VDict info) (plain crypto 300).

Definition empty_world : World := {| fs := ∅; net_log := [] |}.

(** A network that cannot be reached. *)
Definition unreachable : network := fun _ => HttpRaises RequestException.



Definition record_with_epoch_expiry : Py.dict :=
  [("valid", VBool true); ("expire_at", VInt 1); ("last_verified_at", VInt 1000)].



(** A pinning adapter whose pin is the all-zero digest, and an https URL. *)
Definition adapter (skip : bool) : CertificatePinningAdapter.t :=
  {| CertificatePinningAdapter.cert_fingerprint := None;
     CertificatePinningAdapter.cert_path := None;
     CertificatePinningAdapter.skip_verify := skip;
     CertificatePinningAdapter._expected_fingerprint :=
       Some (Str.hex (Demo.pad32 [])) |}.

Definition url : CertificatePinningAdapter.ParsedUrl :=
  {| CertificatePinningAdapter.scheme := "https";
     CertificatePinningAdapter.hostname := Some "license.example";
     CertificatePinningAdapter.port := None |}.

End DemoClient.

(** ** Notions used to state invariants of the client *)

Module Invariants.
Import LicenseClient.

(** [m] keeps [P] true of the object, whether it returns or raises. *)
Definition preserves {A} (P : t -> Prop) (m : M A) : Prop :=
  forall s, P (fst s) -> P (fst (snd (m s))).

(** A property of the object that the license record, the heartbeat
    flags, the cipher and the session do not enter. *)
Class Stable (P : t -> Prop) : Prop := {
  stable_license_info v self : P self -> P (set_license_info v self);
  stable_heartbeat a b self : P self -> P (set_heartbeat a b self);
  stable_encryption e self : P self -> P (set_encryption e self);
  stable_session a self : P self -> P (set_session a self)
}.

(** A configured public key, as PEM text or as a key object, comes with
    require-signature on. *)
Definition signature_invariant (self : t) : Prop :=
  is_Some (public_key_pem self) \/ is_Some (_public_key self) ->
  require_signature self = true.


End Invariants.

(** * Properties *)

(** ** Anti-analysis thresholds *)

Section AntiAnalysis.
Context `{Runtime}.
Import EnvironmentChecker.

Lemma vm_file_scan_cases (fs : file_system) (paths : list string) :
  vm_file_scan fs paths = [] \/ vm_file_scan fs paths = ["file"].
Proof.
  induction paths as [|path rest IH]; simpl; [now left|].
  destruct (path_exists fs path); [|exact IH].
  destruct (read_text fs path); [|exact IH].
  match goal with |- context [if ?b then _ else _] => destruct b end;
    [now right | exact IH].
Qed.

Lemma vm_mac_indicator_cases (h : Host) :
  vm_mac_indicator h = [] \/ vm_mac_indicator h = ["mac"].
Proof.
  unfold vm_mac_indicator. destruct (uuid_getnode h); [|now left].
  match goal with |- context [if ?b then _ else _] => destruct b end; auto.
Qed.

Lemma vm_platform_indicator_cases (h : Host) :
  vm_platform_indicator h = [] \/ vm_platform_indicator h = ["platform"].
Proof.
  unfold vm_platform_indicator. destruct (platform_platform h); [|now left].
  match goal with |- context [if ?b then _ else _] => destruct b end; auto.
Qed.

Lemma sandbox_parts_cases (h : Host) :
  (sandbox_username_indicator h = [] \/ sandbox_username_indicator h = ["username"]) /\
  (sandbox_process_indicator h = [] \/ sandbox_process_indicator h = ["process_count"]) /\
  (sandbox_disk_indicator h = [] \/ sandbox_disk_indicator h = ["disk_size"]).
Proof.
  unfold sandbox_username_indicator, sandbox_process_indicator, sandbox_disk_indicator.
  repeat split.
  - destruct (getpass_getuser h); [|now left].
    match goal with |- context [if ?b then _ else _] => destruct b end; auto.
  - destruct (psutil_pids h); [|now left].
    match goal with |- context [if ?b then _ else _] => destruct b end; auto.
  - destruct (disk_usage_total h); [|now left].
    match goal with |- context [if ?b then _ else _] => destruct b end; auto.
Qed.

Lemma run_checks_spec (cs : list (AntiDebug.Probe -> result bool)) (p : AntiDebug.Probe) :
  AntiDebug.run_checks cs p = true <-> exists check, In check cs /\ check p = Ok true.
Proof.
  induction cs as [|c rest IH]; simpl.
  - split; [discriminate | intros (? & [] & _)].
  - destruct (c p) as [[|]|e] eqn:E.
    + split; [eauto | reflexivity].
    + rewrite IH. split.
      * intros (check & Hin & Hp). eauto.
      * intros (check & [->|Hin] & Hp); [congruence | eauto].
    + rewrite IH. split.
      * intros (check & Hin & Hp). eauto.
      * intros (check & [->|Hin] & Hp); [congruence | eauto].
Qed.

#[local] Ltac indicator_case :=
  split; [| split];
  [ simpl; repeat (apply List.NoDup_cons || apply List.NoDup_nil); simpl; intuition discriminate
  | simpl; intuition
  | rewrite Nat.leb_le; reflexivity ].

(** C8 (as amended).  The virtual-machine and sandbox detectors collect at
    most one indicator of each of three distinct kinds and flag their
    category exactly when at least two kinds fired, so one positive
    indicator never flags them.  The debugger detector has no such
    threshold: it flags as soon as any one of its four checks returns
    true. *)
Theorem anti_analysis_thresholds :
  (forall h fs,
      List.NoDup (vm_indicators h fs) /\
      (forall name, In name (vm_indicators h fs) -> In name ["mac"; "platform"; "file"]) /\
      (is_virtual_machine h fs = true <-> (2 <= length (vm_indicators h fs))%nat)) /\
  (forall h,
      List.NoDup (sandbox_indicators h) /\
      (forall name, In name (sandbox_indicators h) ->
                    In name ["username"; "process_count"; "disk_size"]) /\
      (is_sandbox h = true <-> (2 <= length (sandbox_indicators h))%nat)) /\
  (forall p,
      AntiDebug.is_debugger_present p = true <->
      exists check, In check AntiDebug.checks /\ check p = Ok true).
Proof.
  split; [|split].
  - intros h fs. unfold is_virtual_machine, vm_indicators.
    destruct (vm_mac_indicator_cases h) as [-> | ->],
             (vm_platform_indicator_cases h) as [-> | ->],
             (vm_file_scan_cases fs vm_paths) as [-> | ->];
      indicator_case.
  - intros h. unfold is_sandbox, sandbox_indicators.
    destruct (sandbox_parts_cases h) as ([-> | ->] & [-> | ->] & [-> | ->]);
      indicator_case.
  - intros p. apply run_checks_spec.
Qed.

End AntiAnalysis.

(** C8 (as stated) fails for the debugger category: a probe whose only
    positive indicator is [sys.gettrace()] is reported as a debugger. *)
Lemma debugger_flagged_by_single_indicator :
  let p := {| AntiDebug.sys_gettrace_set := true;
              AntiDebug.environ := fun _ => None;
              AntiDebug.parent_name := Ok None;
              AntiDebug.timing_elapsed := 0 |} in
  length (List.filter (AntiDebug.positive p) AntiDebug.checks) = 1%nat /\
  AntiDebug.is_debugger_present p = true.
Proof. split; reflexivity. Qed.

(** ** Certificate pinning *)

Section Pinning.
Context `{Runtime}.
Import CertificatePinningAdapter.

Lemma str_app_cons (c : ascii) (s1 s2 : string) :
  (String c s1 ++ s2)%string = String c (s1 ++ s2)%string.
Proof. reflexivity. Qed.

Lemma str_app_assoc (s1 s2 s3 : string) :
  (s1 ++ (s2 ++ s3))%string = ((s1 ++ s2) ++ s3)%string.
Proof.
  induction s1 as [|c s1 IH]; [reflexivity|].
  now rewrite !str_app_cons, IH.
Qed.

Lemma str_map_app (f : ascii -> ascii) (s1 s2 : string) :
  Str.map f (s1 ++ s2)%string = (Str.map f s1 ++ Str.map f s2)%string.
Proof.
  induction s1 as [|c s1 IH]; [reflexivity|].
  rewrite str_app_cons. simpl. now rewrite IH, str_app_cons.
Qed.

Lemma upper_app (s1 s2 : string) :
  Str.upper (s1 ++ s2)%string = (Str.upper s1 ++ Str.upper s2)%string.
Proof. apply str_map_app. Qed.

Lemma lower_app (s1 s2 : string) :
  Str.lower (s1 ++ s2)%string = (Str.lower s1 ++ Str.lower s2)%string.
Proof. apply str_map_app. Qed.

Lemma replace_char_app (c : ascii) (r s1 s2 : string) :
  Str.replace_char c r (s1 ++ s2)%string
  = (Str.replace_char c r s1 ++ Str.replace_char c r s2)%string.
Proof.
  induction s1 as [|a s1 IH]; [reflexivity|].
  rewrite str_app_cons. simpl.
  destruct (Ascii.eqb a c); rewrite IH; [apply str_app_assoc | now rewrite str_app_cons].
Qed.

(** Stripping and re-casing one byte's upper-cased hex pair gives the
    lower-case pair back. *)
Lemma normalize_hex2 (b : byte) :
  Str.lower (Str.replace_char ":" "" (Str.upper (Str.upper (Str.hex2 (Byte.to_N b)))))
  = Str.hex2 (Byte.to_N b).
Proof. destruct b; reflexivity. Qed.

Lemma pairs_hex (bs : bytes) :
  pairs (Str.hex bs) = List.map (fun b => Str.hex2 (Byte.to_N b)) bs.
Proof.
  induction bs as [|b bs IH]; [reflexivity|].
  cbn [Str.hex List.map]. unfold Str.hex2 at 1. rewrite !str_app_cons.
  change ("" ++ Str.hex bs)%string with (Str.hex bs).
  cbn [pairs]. now rewrite IH.
Qed.

Lemma normalize_joined (bs : bytes) :
  Str.lower (Str.replace_char ":" ""
    (Str.upper (Str.join ":" (List.map Str.upper
                                (List.map (fun b => Str.hex2 (Byte.to_N b)) bs)))))
  = Str.hex bs.
Proof.
  induction bs as [|b bs IH]; [reflexivity|].
  destruct bs as [|b' bs].
  - cbn [List.map Str.join Str.hex]. rewrite normalize_hex2.
    unfold Str.hex2. reflexivity.
  - change (List.map Str.upper (List.map (fun b => Str.hex2 (Byte.to_N b)) (b :: b' :: bs)))
      with (Str.upper (Str.hex2 (Byte.to_N b))
            :: List.map Str.upper (List.map (fun b => Str.hex2 (Byte.to_N b)) (b' :: bs))).
    change (Str.hex (b :: b' :: bs))
      with (Str.hex2 (Byte.to_N b) ++ Str.hex (b' :: bs))%string.
    rewrite <- IH.
    set (rest := List.map Str.upper _).
    change (Str.join ":" (Str.upper (Str.hex2 (Byte.to_N b)) :: rest))
      with (Str.upper (Str.hex2 (Byte.to_N b)) ++ ":" ++ Str.join ":" rest)%string.
    rewrite !upper_app, !replace_char_app, !lower_app, normalize_hex2.
    reflexivity.
Qed.

(** The pin printed by [get_server_certificate_fingerprint] normalizes to
    the hex digest the check compares with. *)
Lemma normalize_display_form (cert_der : bytes) :
  normalize_fingerprint (get_server_certificate_fingerprint cert_der)
  = Str.hex (sha256 cert_der).
Proof.
  unfold normalize_fingerprint, get_server_certificate_fingerprint.
  rewrite pairs_hex.
  set (formatted := Str.join ":" _).
  change (Str.upper ("SHA256:" ++ formatted)%string)
    with ("SHA256:" ++ Str.upper formatted)%string.
  change (Str.startswith ("SHA256:" ++ Str.upper formatted)%string "SHA256:")
    with (String.prefix "" (Str.upper formatted)).
  replace (String.prefix "" (Str.upper formatted)) with true
    by (now destruct (Str.upper formatted)).
  change (Str.drop 7 ("SHA256:" ++ Str.upper formatted)%string) with (Str.upper formatted).
  apply normalize_joined.
Qed.

(** C5.  The independent fingerprint check returns or raises
    [CertificatePinningError], nothing else.  It raises exactly when the
    URL is https, the secondary handshake yields a certificate, and the hex
    SHA-256 of that certificate differs from the stored pin; it returns
    when the handshake fails.  The stored pin of an adapter built from a
    fingerprint string is that string upper-cased, without a leading
    ["SHA256:"], without colons, lower-cased, so the display form of a
    certificate's own fingerprint is accepted.  In skip-verification mode
    [send] does not run the check: it returns or raises what the underlying
    send does, whatever the secondary handshake would give. *)
Theorem pinning_check_outcomes :
  (forall self url tls cert_der,
      scheme url = "https" ->
      tls (hostname url) (port_or_443 url) = Some cert_der ->
      Some (Str.hex (sha256 cert_der)) <> _expected_fingerprint self ->
      _verify_certificate_fingerprint self url tls = Raise CertificatePinningError) /\
  (forall self url tls,
      tls (hostname url) (port_or_443 url) = None ->
      _verify_certificate_fingerprint self url tls = Ok tt) /\
  (forall self url tls,
      _verify_certificate_fingerprint self url tls = Ok tt \/
      (_verify_certificate_fingerprint self url tls = Raise CertificatePinningError /\
       scheme url = "https" /\
       exists cert_der,
         tls (hostname url) (port_or_443 url) = Some cert_der /\
         Some (Str.hex (sha256 cert_der)) <> _expected_fingerprint self)) /\
  (forall fs fingerprint skip self,
      fingerprint <> "" ->
      __init__ fs (Some fingerprint) None skip = Ok self ->
      _expected_fingerprint self
      = Some (Str.lower (Str.replace_char ":" ""
                (let fp := Str.upper fingerprint in
                 if Str.startswith fp "SHA256:" then Str.drop 7 fp else fp)))) /\
  (forall fs skip self url tls pinned_cert cert_der,
      __init__ fs (Some (get_server_certificate_fingerprint pinned_cert)) None skip = Ok self ->
      tls (hostname url) (port_or_443 url) = Some cert_der ->
      Str.hex (sha256 cert_der) = Str.hex (sha256 pinned_cert) ->
      _verify_certificate_fingerprint self url tls = Ok tt) /\
  (forall self fs url super_send tls,
      skip_verify self = true ->
      send self fs url super_send tls = super_send url VerifyOff).
Proof.
  repeat apply conj.
  - intros self url tls cert_der Hs Ht Hne.
    unfold _verify_certificate_fingerprint. rewrite Hs, Ht. simpl.
    rewrite bool_decide_eq_false_2; [reflexivity | exact Hne].
  - intros self url tls Ht.
    unfold _verify_certificate_fingerprint. rewrite Ht.
    now destruct (negb _).
  - intros self url tls. unfold _verify_certificate_fingerprint.
    destruct (String.eqb (scheme url) "https") eqn:Hs; simpl; [|now left].
    apply String.eqb_eq in Hs.
    destruct (tls (hostname url) (port_or_443 url)) as [cert_der|] eqn:Ht; [|now left].
    destruct (bool_decide _) eqn:Hd; [now left|].
    right. repeat split; [exact Hs|].
    exists cert_der. split; [reflexivity|].
    now apply bool_decide_eq_false in Hd.
  - intros fs fingerprint skip self Hne. unfold __init__. simpl.
    destruct (String.eqb fingerprint "") eqn:He;
      [apply String.eqb_eq in He; contradiction|].
    simpl. intros [= <-]. reflexivity.
  - intros fs skip self url tls pinned_cert cert_der Hinit Ht Heq.
    unfold __init__ in Hinit. simpl in Hinit.
    destruct (String.eqb (get_server_certificate_fingerprint pinned_cert) "") eqn:He;
      [discriminate He|].
    simpl in Hinit. injection Hinit as <-.
    unfold _verify_certificate_fingerprint. rewrite Ht. simpl.
    destruct (negb _); [reflexivity|].
    rewrite bool_decide_eq_true_2; [reflexivity|].
    now rewrite normalize_display_form, Heq.
  - intros self fs url super_send tls Hskip. unfold send. rewrite Hskip. simpl.
    rewrite andb_false_r. now destruct (super_send url VerifyOff).
Qed.

End Pinning.

(** ** Encryption of the cached record *)

Section CacheCrypto.
Context {R : Runtime} {L : RuntimeLaws R}.
Import CacheEncryption.

Lemma xor_involutive (a k : byte) : Bytes.xor (Bytes.xor a k) k = a.
Proof.
  unfold Bytes.xor. rewrite Byte.to_bits_of_bits.
  rewrite <- (Byte.of_bits_to_bits a) at 2.
  destruct (Byte.to_bits a) as (a0 & a1 & a2 & a3 & a4 & a5 & a6 & a7).
  destruct (Byte.to_bits k) as (k0 & k1 & k2 & k3 & k4 & k5 & k6 & k7).
  cbn [Bytes.xor_bits].
  now rewrite !xorb_assoc, !xorb_nilpotent, !xorb_false_r.
Qed.

Lemma key_at_defined (key : bytes) (i : nat) :
  key <> [] -> exists k, key_at key i = Ok k.
Proof. destruct key; [congruence | eauto]. Qed.

Lemma xor_stream_defined (key : bytes) (data : bytes) :
  key <> [] -> forall i, exists out, xor_stream key i data = Ok out.
Proof.
  intros Hkey. induction data as [|c data IH]; intros i; simpl; [eauto|].
  destruct (key_at_defined key i Hkey) as [k ->].
  destruct (IH (S i)) as [out ->]. simpl. eauto.
Qed.

(** The XOR stream undoes itself. *)
Lemma xor_stream_involutive (key : bytes) (data : bytes) :
  forall i out, xor_stream key i data = Ok out -> xor_stream key i out = Ok data.
Proof.
  induction data as [|c data IH]; intros i out; simpl.
  - now intros [= <-].
  - destruct (key_at key i) as [k|] eqn:Hk; [|discriminate]. simpl.
    destruct (xor_stream key (S i) data) as [rest|] eqn:Hr; [|discriminate]. simpl.
    intros [= <-]. simpl. rewrite Hk. simpl. rewrite (IH _ _ Hr). simpl.
    now rewrite xor_involutive.
Qed.

Lemma xor_key_nonempty (self : t) : xor_key self <> [].
Proof.
  unfold xor_key. intros E.
  pose proof (sha256_length (str_encode (machine_id self ++ app_key self)%string)) as Hl.
  rewrite E in Hl. discriminate Hl.
Qed.

Lemma simple_roundtrip (self : t) (r : string) :
  exists c, _simple_obfuscate self r = Ok c /\ _simple_deobfuscate self c = Ok r.
Proof.
  unfold _simple_obfuscate, _simple_deobfuscate.
  destruct (xor_stream_defined (xor_key self) (str_encode r) (xor_key_nonempty self) 0%nat)
    as [out Hout].
  exists (b64encode out). rewrite Hout. simpl. split; [reflexivity|].
  rewrite b64decode_encode. simpl.
  rewrite (xor_stream_involutive _ _ _ _ Hout). simpl.
  now rewrite bytes_decode_encode.
Qed.

Lemma primary_roundtrip (key entropy : bytes) (r : string) :
  decrypt_primary key (b64encode (fernet_encrypt key entropy (str_encode r))) = Ok r.
Proof.
  unfold decrypt_primary. rewrite b64decode_encode. simpl.
  rewrite fernet_decrypt_encrypt. simpl. now rewrite bytes_decode_encode.
Qed.

(** C4.  In either mode [decrypt] returns the record that [encrypt] was
    given.  With a Fernet object in use [decrypt] tries the Fernet path
    first and, when that raises, returns what XOR de-obfuscation returns;
    so a record written by the XOR fallback, which the Fernet path rejects,
    is read back as well. *)
Theorem cache_encryption_roundtrip (self : t) (entropy : bytes) (r : string) :
  (exists c, encrypt self entropy r = Ok c /\ decrypt self c = Ok r) /\
  (fernet_in_use self = None ->
     encrypt self entropy r = _simple_obfuscate self r /\
     forall blob, decrypt self blob = _simple_deobfuscate self blob) /\
  (forall key, fernet_in_use self = Some key ->
     encrypt self entropy r = Ok (b64encode (fernet_encrypt key entropy (str_encode r))) /\
     (forall blob data, decrypt_primary key blob = Ok data -> decrypt self blob = Ok data) /\
     (forall blob e data,
         decrypt_primary key blob = Raise e ->
         _simple_deobfuscate self blob = Ok data ->
         decrypt self blob = Ok data) /\
     (forall c e,
         _simple_obfuscate self r = Ok c ->
         decrypt_primary key c = Raise e ->
         decrypt self c = Ok r)).
Proof.
  split; [|split].
  - unfold encrypt, decrypt. destruct (fernet_in_use self) as [key|].
    + eexists. split; [reflexivity|]. now rewrite primary_roundtrip.
    + apply simple_roundtrip.
  - intros Hmode. unfold encrypt, decrypt. rewrite Hmode. auto.
  - intros key Hmode. unfold encrypt, decrypt. rewrite Hmode.
    split; [reflexivity|]. split; [|split].
    + now intros blob data ->.
    + now intros blob e data -> ->.
    + intros c e Hc ->.
      destruct (simple_roundtrip self r) as (c' & Hc' & Hd).
      rewrite Hc in Hc'. injection Hc' as <-. now rewrite Hd.
Qed.

End CacheCrypto.

(** ** Response signatures *)

Section Signatures.
Context `{Runtime}.
Import LicenseClient.

(** The cryptographic check accepts exactly the valid signatures. *)
Lemma verify_signature_spec (self : t) (key : RSAPublicKey) (data : Py.dict)
    (signature : value) :
  CRYPTO_AVAILABLE = true ->
  _public_key self = Some key ->
  (_verify_signature self (_canonical_json (without_signature data)) signature = Ok tt
   <-> signature_valid key data signature) /\
  (_verify_signature self (_canonical_json (without_signature data)) signature = Ok tt \/
   _verify_signature self (_canonical_json (without_signature data)) signature
   = Raise SignatureVerificationError).
Proof.
  intros Hc Hk. unfold _verify_signature, check_signature, signature_valid.
  rewrite Hc, Hk. simpl.
  destruct signature as [| | | |s| |]; simpl;
    try (split; [split; [discriminate | intros (? & ? & [=] & _)] | now right]).
  destruct (b64decode s) as [raw|] eqn:Hb; simpl.
  - destruct (rsa_verify key raw _) eqn:Hv.
    + split; [|now left]. split; [|reflexivity].
      intros _. exists s, raw. auto.
    + split; [|now right]. split; [discriminate|].
      intros (s' & raw' & [= <-] & Hb' & Hv'). congruence.
  - split; [|now right]. split; [discriminate|].
    intros (s' & raw' & [= <-] & Hb' & _). congruence.
Qed.

Lemma verify_signature_not_expired (self : t) (data : bytes) (signature : value) :
  _verify_signature self data signature <> Raise SignatureExpiredError.
Proof.
  unfold _verify_signature. destruct (negb CRYPTO_AVAILABLE); [discriminate|].
  destruct (check_signature self data signature); discriminate.
Qed.

(** C1 (as amended).  Without a public key the response is accepted when
    require-signature is off and rejected (no key) when it is on, whatever
    the signature.  With a public key and no signature it is accepted when
    require-signature is off and rejected (signature missing) when it is
    on.  With a public key and a signature the replay check runs first: a
    payload it rejects is rejected whatever the signature; a payload it
    passes is accepted if and only if the signature is valid, and rejected
    (signature invalid) otherwise. *)
Theorem response_signature_decision_table (self : t) (now : Q) (data : Py.dict)
    (signature : value) :
  (_public_key self = None ->
   _verify_response_signature self now data signature
   = if require_signature self then Raise (LicenseError MsgNoPublicKey) else Ok tt) /\
  (forall key,
      _public_key self = Some key ->
      truthy signature = false ->
      _verify_response_signature self now data signature
      = if require_signature self then Raise SignatureMissingError else Ok tt) /\
  (forall key e,
      _public_key self = Some key ->
      truthy signature = true ->
      replay_check self now data = Raise e ->
      _verify_response_signature self now data signature = Raise e) /\
  (forall key,
      _public_key self = Some key ->
      truthy signature = true ->
      CRYPTO_AVAILABLE = true ->
      replay_check self now data = Ok tt ->
      (_verify_response_signature self now data signature = Ok tt
       <-> signature_valid key data signature) /\
      (~ signature_valid key data signature ->
       _verify_response_signature self now data signature
       = Raise SignatureVerificationError)).
Proof.
  unfold _verify_response_signature. repeat apply conj.
  - now intros ->.
  - now intros key -> ->.
  - now intros key e -> -> ->.
  - intros key Hk Hs Hc Hr. rewrite Hk, Hs, Hr. simpl.
    destruct (verify_signature_spec self key data signature Hc Hk) as [Hiff Hcases].
    split; [exact Hiff|].
    intros Hinvalid. destruct Hcases as [Hok|Hbad]; [|exact Hbad].
    now apply Hiff in Hok.
Qed.

(** C3 (as amended).  With a public key configured, a signature present, a
    positive replay window and a payload whose timestamp is truthy and
    converts to the integer [issued], the payload is rejected as expired
    exactly when [|int(now) - issued| > window]; the rejection does not look
    at the signature, and a payload that is not expired gets the outcome of
    the cryptographic check.  A timestamp exactly [window] seconds old
    passes the replay check and one [window + 1] seconds old fails it. *)
Theorem replay_window_boundary (self : t) (now : Q) (data : Py.dict)
    (signature : value) (key : RSAPublicKey) (issued : Z) :
  _public_key self = Some key ->
  truthy signature = true ->
  0 < signature_time_window self ->
  truthy (dict_get "timestamp" data VNone) = true ->
  py_int (dict_get "timestamp" data VNone) = Ok issued ->
  (_verify_response_signature self now data signature = Raise SignatureExpiredError
   <-> signature_time_window self < Z.abs (Qtrunc now - issued)) /\
  (Z.abs (Qtrunc now - issued) <= signature_time_window self ->
   _verify_response_signature self now data signature
   = _verify_signature self (_canonical_json (without_signature data)) signature) /\
  (issued = Qtrunc now - signature_time_window self ->
   replay_check self now data = Ok tt) /\
  (issued = Qtrunc now - (signature_time_window self + 1) ->
   _verify_response_signature self now data signature = Raise SignatureExpiredError).
Proof.
  intros Hk Hs Hw Ht Hi.
  assert (Hreplay : replay_check self now data
                    = if signature_time_window self <? Z.abs (Qtrunc now - issued)
                      then Raise SignatureExpiredError else Ok tt).
  { unfold replay_check. rewrite (proj2 (Z.ltb_lt _ _) Hw), Ht, Hi. reflexivity. }
  unfold _verify_response_signature. rewrite Hk, Hs, Hreplay. simpl.
  destruct (signature_time_window self <? Z.abs (Qtrunc now - issued)) eqn:Hcmp.
  - apply Z.ltb_lt in Hcmp. repeat apply conj.
    + intros _. exact Hcmp.
    + reflexivity.
    + intros Hle. lia.
    + intros ->. lia.
    + reflexivity.
  - apply Z.ltb_ge in Hcmp. repeat apply conj.
    + intros Hbad. now apply verify_signature_not_expired in Hbad.
    + intros Hlt. lia.
    + reflexivity.
    + reflexivity.
    + intros ->. lia.
Qed.

End Signatures.

(** C1 (as stated) fails: with a public key configured and a valid
    signature present, a payload whose timestamp is outside the replay
    window is rejected as expired. *)
Lemma valid_signature_rejected_when_stale :
  let data := [("timestamp", VInt 1)] in
  let signature := VStr "k{}" in
  LicenseClient._public_key (DemoClient.signed 300)
  = Some {| key_material := list_byte_of_string "k" |} /\
  LicenseClient.signature_valid (H := Demo.runtime true)
    {| key_material := list_byte_of_string "k" |} data signature /\
  LicenseClient._verify_response_signature (H := Demo.runtime true)
    (DemoClient.signed 300) (inject_Z 1000) data signature
  = Raise SignatureExpiredError.
Proof.
  split; [reflexivity|]. split; [|reflexivity].
  exists "k{}", (list_byte_of_string "k{}"). repeat split.
Qed.

(** C3 (as stated) fails in three ways.  At second 1000 a payload stamped
    second 1 is 999 s old, yet it is accepted when no public key is
    configured (window 300) and when the window is negative, hence nonzero
    (window -1, valid signature); and a payload stamped second 0 is accepted
    under a window of 300, its timestamp being treated as absent. *)
Lemma stale_payload_accepted :
  let now := inject_Z 1000 in
  let signature := VStr "k{}" in
  (300 < Z.abs (Qtrunc now - 1) /\
   LicenseClient._public_key (DemoClient.plain true 300) = None /\
   LicenseClient._verify_response_signature (H := Demo.runtime true)
     (DemoClient.plain true 300) now [("timestamp", VInt 1)] signature = Ok tt) /\
  (LicenseClient.signature_time_window (DemoClient.signed (-1)) <> 0 /\
   LicenseClient.signature_time_window (DemoClient.signed (-1)) < Z.abs (Qtrunc now - 1) /\
   LicenseClient._verify_response_signature (H := Demo.runtime true)
     (DemoClient.signed (-1)) now [("timestamp", VInt 1)] signature = Ok tt) /\
  (dict_lookup "timestamp" [("timestamp", VInt 0)] = Some (VInt 0) /\
   300 < Z.abs (Qtrunc now - 0) /\
   LicenseClient._verify_response_signature (H := Demo.runtime true)
     (DemoClient.signed 300) now [("timestamp", VInt 0)] signature = Ok tt).
Proof. repeat split; discriminate. Qed.

(** ** What the methods leave unchanged *)

Section Preservation.
Context `{Runtime}.
Import LicenseClient Invariants.

Lemma preserves_ret {A} P (a : A) : preserves P (mret a).
Proof. now intros s. Qed.

Lemma preserves_ret' {A} P (a : A) : preserves P (ret a).
Proof. now intros s. Qed.

Lemma preserves_raise {A} P e : preserves P (raise (A := A) e).
Proof. now intros s. Qed.

Lemma preserves_lift {A} P (r : result A) : preserves P (lift r).
Proof. now intros s. Qed.

Lemma preserves_get_self P : preserves P get_self.
Proof. now intros s. Qed.

Lemma preserves_get_world P : preserves P get_world.
Proof. now intros s. Qed.

Lemma preserves_modify_world P f : preserves P (modify_world f).
Proof. now intros s. Qed.

Lemma preserves_modify_self (P : t -> Prop) f :
  (forall self, P self -> P (f self)) -> preserves P (modify_self f).
Proof. intros Hf s. apply Hf. Qed.

Lemma preserves_bind {A B} P (m : M A) (k : A -> M B) :
  preserves P m -> (forall a, preserves P (k a)) -> preserves P (m ≫= k).
Proof.
  intros Hm Hk s HP. unfold mbind, M_bind, bindM.
  specialize (Hm s HP). destruct (m s) as [[a|e] s']; [|exact Hm].
  now apply Hk.
Qed.

Lemma preserves_except_license_error {A} P (m : M A) (v : A) :
  preserves P m -> preserves P (except_license_error m v).
Proof.
  intros Hm s HP. unfold except_license_error. specialize (Hm s HP).
  destruct (m s) as [[a|[]] s']; exact Hm.
Qed.

Lemma preserves_except_any {A} P (m h : M A) :
  preserves P m -> preserves P h -> preserves P (except_any m h).
Proof.
  intros Hm Hh s HP. unfold except_any. specialize (Hm s HP).
  destruct (m s) as [[a|e] s']; [exact Hm | now apply Hh].
Qed.

End Preservation.

#[local] Ltac preserve_step :=
  lazymatch goal with
  | |- Invariants.preserves _ (mbind _ _) => apply preserves_bind; [|intros ?]
  | |- Invariants.preserves _ (mret _) => apply preserves_ret
  | |- Invariants.preserves _ (LicenseClient.ret _) => apply preserves_ret'
  | |- Invariants.preserves _ (LicenseClient.raise _) => apply preserves_raise
  | |- Invariants.preserves _ (LicenseClient.lift _) => apply preserves_lift
  | |- Invariants.preserves _ LicenseClient.get_self => apply preserves_get_self
  | |- Invariants.preserves _ LicenseClient.get_world => apply preserves_get_world
  | |- Invariants.preserves _ (LicenseClient.modify_world _) => apply preserves_modify_world
  | |- Invariants.preserves _ (LicenseClient.modify_self _) =>
      apply preserves_modify_self; intros ? ?;
      first [ now apply Invariants.stable_license_info
            | now apply Invariants.stable_heartbeat
            | now apply Invariants.stable_encryption
            | now apply Invariants.stable_session ]
  | |- Invariants.preserves _ (LicenseClient.except_license_error _ _) =>
      apply preserves_except_license_error
  | |- Invariants.preserves _ (LicenseClient.except_any _ _) => apply preserves_except_any
  | |- Invariants.preserves _ (if ?b then _ else _) => destruct b
  | |- Invariants.preserves _ (match ?x with _ => _ end) => destruct x
  | |- Invariants.preserves _ (let _ := _ in _) => cbv zeta
  end.

#[local] Ltac preserve := repeat preserve_step.

Section PreservationOfMethods.
Context `{Runtime}.
Import LicenseClient Invariants.
Context (P : t -> Prop) {SP : Stable P}.

Lemma preserves_save_cache entropy : preserves P (_save_cache entropy).
Proof. unfold _save_cache. preserve. Qed.

Lemma preserves_load_cache entropy : preserves P (_load_cache entropy).
Proof. unfold _load_cache. preserve; apply preserves_save_cache. Qed.

Lemma preserves_clear_cache : preserves P _clear_cache.
Proof. unfold _clear_cache. preserve. Qed.

Lemma preserves_request method endpoint data net :
  preserves P (_request method endpoint data net).
Proof. unfold _request. preserve. Qed.

Lemma preserves_start_heartbeat : preserves P _start_heartbeat.
Proof. unfold _start_heartbeat. preserve. Qed.

Lemma preserves_verify now net entropy : preserves P (verify now net entropy).
Proof.
  unfold verify. preserve;
    first [apply preserves_request | apply preserves_save_cache].
Qed.

Lemma preserves_heartbeat now net entropy : preserves P (heartbeat now net entropy).
Proof.
  unfold heartbeat. preserve;
    first [apply preserves_request | apply preserves_save_cache].
Qed.

Lemma preserves_activate k now net entropy : preserves P (activate k now net entropy).
Proof.
  unfold activate. preserve;
    first [apply preserves_request | apply preserves_save_cache
          | apply preserves_start_heartbeat].
Qed.

Lemma preserves_login e p now net entropy : preserves P (login e p now net entropy).
Proof.
  unfold login. preserve;
    first [apply preserves_request | apply preserves_save_cache
          | apply preserves_start_heartbeat].
Qed.

Lemma preserves_register e p n net : preserves P (register e p n net).
Proof. unfold register. preserve; apply preserves_request. Qed.

Lemma preserves_change_password o n e net : preserves P (change_password o n e net).
Proof. unfold change_password. preserve; apply preserves_request. Qed.

Lemma preserves_deactivate net : preserves P (deactivate net).
Proof.
  unfold deactivate. preserve;
    first [apply preserves_request | apply preserves_clear_cache].
Qed.

Lemma preserves_is_valid now net entropy : preserves P (is_valid now net entropy).
Proof.
  unfold is_valid, offline_gate. preserve; apply preserves_verify.
Qed.

Lemma preserves_check_update net : preserves P (check_update net).
Proof. unfold check_update. preserve; apply preserves_request. Qed.

Lemma preserves_close : preserves P close.
Proof. unfold close. preserve. Qed.

Lemma preserves_init_session : preserves P _init_session.
Proof. unfold _init_session. preserve. Qed.

End PreservationOfMethods.

(** ** The signature invariant *)

Section SignatureInvariant.
Context `{Runtime}.
Import LicenseClient Invariants PublicInterface.

#[local] Instance signature_invariant_stable : Stable signature_invariant.
Proof. split; intros; assumption. Qed.

Lemma init_public_key_invariant : preserves signature_invariant _init_public_key.
Proof.
  intros [self w] Hinv. unfold _init_public_key, mbind, M_bind, bindM, get_self. simpl.
  destruct (negb CRYPTO_AVAILABLE); [exact Hinv|].
  destruct (public_key_pem self) as [pem|] eqn:Hpem; [|exact Hinv].
  destruct (load_pem_public_key (str_encode pem)); [|exact Hinv].
  simpl. intros _. apply Hinv. left. simpl. rewrite Hpem. eauto.
Qed.

#[local] Instance require_signature_stable :
  Stable (fun self => require_signature self = true).
Proof. split; intros; assumption. Qed.

Lemma init_public_key_keeps_require :
  preserves (fun self => require_signature self = true) _init_public_key.
Proof.
  intros [self w] Hreq. unfold _init_public_key, mbind, M_bind, bindM, get_self. simpl.
  destruct (negb CRYPTO_AVAILABLE); [exact Hreq|].
  destruct (public_key_pem self) as [pem|]; [|exact Hreq].
  destruct (load_pem_public_key (str_encode pem)); exact Hreq.
Qed.

Lemma set_public_key_requires (pem : string) (s : t * World) :
  require_signature (fst (snd (set_public_key pem s))) = true /\
  public_key_pem (fst (snd (set_public_key pem s))) = Some pem.
Proof.
  destruct s as [self w].
  unfold set_public_key, _init_public_key, mbind, M_bind, bindM, modify_self, get_self.
  simpl. destruct (negb CRYPTO_AVAILABLE); [now split|].
  destruct (load_pem_public_key (str_encode pem)); now split.
Qed.

Lemma after_call_invariant (c : call) now net entropy (s : t * World) :
  signature_invariant (fst s) -> signature_invariant (fst (after c now net entropy s)).
Proof.
  intros Hinv. destruct c; cbn [after].
  - now apply (preserves_activate signature_invariant).
  - now apply (preserves_login signature_invariant).
  - now apply (preserves_register signature_invariant).
  - now apply (preserves_change_password signature_invariant).
  - now apply (preserves_verify signature_invariant).
  - now apply (preserves_heartbeat signature_invariant).
  - now apply (preserves_deactivate signature_invariant).
  - now apply (preserves_is_valid signature_invariant).
  - now apply (preserves_check_update signature_invariant).
  - now apply (preserves_close signature_invariant).
  - intros _. apply set_public_key_requires.
Qed.

Lemma setup_preserves (P : t -> Prop) {SP : Stable P} entropy :
  preserves P _init_public_key -> preserves P (setup entropy).
Proof.
  intros Hkey. unfold setup.
  apply preserves_bind; [apply preserves_get_self | intros self].
  apply preserves_bind; [destruct (_ && _);
                         [exact Hkey | apply preserves_ret']
                        | intros _].
  apply preserves_bind; [destruct (encrypt_cache self);
                         [apply preserves_modify_self; intros; now apply stable_encryption
                         | apply preserves_ret']
                        | intros _].
  apply preserves_bind; [now apply preserves_init_session | intros _].
  now apply preserves_load_cache.
Qed.

Lemma init_preserves (P : t -> Prop) {SP : Stable P}
    cfg machine_id home device_info entropy w self w' :
  preserves P _init_public_key ->
  P (fresh cfg machine_id home device_info) ->
  __init__ cfg machine_id home device_info entropy w = (Ok self, w') ->
  P self.
Proof.
  unfold __init__. intros Hkey Hfresh Hinit.
  pose proof (setup_preserves P entropy Hkey (fresh cfg machine_id home device_info, w) Hfresh)
    as Hs.
  destruct (setup entropy (fresh cfg machine_id home device_info, w)) as [[[]|e] [self' w'']];
    [|discriminate].
  injection Hinit as <- <-. exact Hs.
Qed.

Lemma init_invariant cfg machine_id home device_info entropy w self w' :
  __init__ cfg machine_id home device_info entropy w = (Ok self, w') ->
  signature_invariant self.
Proof.
  apply (init_preserves signature_invariant); [apply init_public_key_invariant|].
  intros [Hpem | [k Hk]]; [|discriminate Hk].
  simpl in *. rewrite bool_decide_eq_true_2 by exact Hpem. apply orb_true_r.
Qed.

(** C9.  The constructor turns require-signature on when a public key PEM
    is supplied, also when the caller passed [require_signature=False];
    [set_public_key] turns it on; and in every state reached from the
    constructor by calls of public methods, a configured public key (PEM
    text or key object) comes with require-signature on. *)
Theorem public_key_implies_require_signature :
  (forall cfg machine_id home device_info entropy w self w',
      __init__ cfg machine_id home device_info entropy w = (Ok self, w') ->
      is_Some (cfg_public_key_pem cfg) ->
      require_signature self = true) /\
  (forall pem s, require_signature (fst (snd (set_public_key pem s))) = true) /\
  (forall s,
      reachable s ->
      is_Some (public_key_pem (fst s)) \/ is_Some (_public_key (fst s)) ->
      require_signature (fst s) = true).
Proof.
  assert (Hreach : forall s, reachable s -> signature_invariant (fst s)).
  { induction 1 as [cfg machine_id home device_info entropy w self w' Hinit | s c now net entropy _ IH].
    - simpl. eapply init_invariant, Hinit.
    - now apply after_call_invariant. }
  repeat apply conj.
  - intros cfg machine_id home device_info entropy w self w' Hinit Hpem.
    apply (init_preserves (fun self => require_signature self = true)
             cfg machine_id home device_info entropy w self w');
      [apply init_public_key_keeps_require | | exact Hinit].
    simpl. rewrite bool_decide_eq_true_2 by exact Hpem. apply orb_true_r.
  - intros pem s. apply set_public_key_requires.
  - intros s Hs. apply (Hreach s Hs).
Qed.

End SignatureInvariant.

(** ** Loading the cache and answering validity queries *)

Section Validity.
Context `{Runtime}.
Import LicenseClient.

#[local] Ltac run := unfold mbind, M_bind, bindM, get_self, get_world, modify_self,
                       modify_world, lift, ret, raise, except_any; simpl.


Lemma valid_flag_nonempty (info : Py.dict) :
  truthy (dict_get "valid" info (VBool false)) = true -> truthy (VDict info) = true.
Proof. now destruct info. Qed.

(** [is_valid] on a record whose validity flag is set: the expiry test,
    then the offline gate. *)
Lemma is_valid_flagged (self : t) (w : World) now net entropy (info : Py.dict) :
  _license_info self = VDict info ->
  truthy (dict_get "valid" info (VBool false)) = true ->
  is_valid now net entropy (self, w)
  = if expired now info then (Ok (VBool false), (self, w))
    else offline_gate info now net entropy (self, w).
Proof.
  intros Hinfo Hvalid. unfold is_valid. run.
  rewrite Hinfo, (valid_flag_nonempty info Hvalid). simpl. rewrite Hvalid. simpl.
  now destruct (expired now info).
Qed.


Lemma offline_gate_within_grace (self : t) (w : World) now net entropy
    (info : Py.dict) (last_verified : Q) :
  as_number (dict_get "last_verified_at" info (VInt 0)) = Ok last_verified ->
  (offline_days now last_verified <= inject_Z (offline_grace_days self))%Q ->
  offline_gate info now net entropy (self, w) = (Ok (VBool true), (self, w)).
Proof.
  intros Hlast Hle. unfold offline_gate. run. rewrite Hlast. simpl.
  now rewrite (proj2 (Qle_bool_iff _ _) Hle).
Qed.



(** C10.  When the record's [expire_at] is not a string, or is a string
    that [datetime.fromisoformat] rejects, [is_valid] applies no expiry
    test: the answer is that of the offline gate alone, hence True within
    the grace period whatever time [expire_at] denotes. *)
Theorem expiry_checked_only_for_iso_strings (self : t) (w : World) (now : Q)
    (net : network) (entropy : bytes) (info : Py.dict) (expire_at : value) :
  _license_info self = VDict info ->
  truthy (dict_get "valid" info (VBool false)) = true ->
  dict_lookup "expire_at" info = Some expire_at ->
  (forall s, expire_at = VStr s ->
             fromisoformat_timestamp (Str.replace_char "Z" "+00:00" s) = None) ->
  expired now info = false /\
  is_valid now net entropy (self, w) = offline_gate info now net entropy (self, w) /\
  (forall last_verified,
      as_number (dict_get "last_verified_at" info (VInt 0)) = Ok last_verified ->
      (offline_days now last_verified <= inject_Z (offline_grace_days self))%Q ->
      is_valid now net entropy (self, w) = (Ok (VBool true), (self, w))).
Proof.
  intros Hinfo Hvalid Hlookup Hparse.
  assert (Hexp : expired now info = false).
  { unfold expired, dict_get. rewrite Hlookup.
    destruct (truthy expire_at); [|reflexivity].
    destruct expire_at; try reflexivity.
    now rewrite (Hparse s eq_refl). }
  split; [exact Hexp|]. split.
  - now rewrite (is_valid_flagged self w now net entropy info Hinfo Hvalid), Hexp.
  - intros last_verified Hlast Hle.
    rewrite (is_valid_flagged self w now net entropy info Hinfo Hvalid), Hexp.
    now apply (offline_gate_within_grace self w now net entropy info last_verified).
Qed.

End Validity.

(** ** The hardening layer *)

Section Hardening.
Context `{Runtime}.
Import LicenseClient SecureLicenseClient Invariants.








End Hardening.

(** ** The model at work on concrete inputs *)

Lemma demo_runtime_laws (crypto : bool) : RuntimeLaws (Demo.runtime crypto).
Proof.
  split; simpl.
  - intros s. now rewrite string_of_list_byte_of_string.
  - intros b. now rewrite list_byte_of_string_of_list_byte.
  - reflexivity.
  - intros b. unfold Demo.pad32.
    rewrite length_firstn, length_app, repeat_length. lia.
Qed.

(** A response timestamped 100 s ago, signed with the configured key. *)
Lemma response_signature_decision_table_witness :
  let key := {| key_material := list_byte_of_string "k" |} in
  let data := [("timestamp", VInt 900)] in
  LicenseClient._verify_response_signature (H := Demo.runtime true)
    (DemoClient.signed 300) (inject_Z 1000) data (VStr "k{}") = Ok tt
  <-> LicenseClient.signature_valid (H := Demo.runtime true) key data (VStr "k{}").
Proof.
  intros key data.
  exact (proj1 (proj2 (proj2 (proj2
           (@response_signature_decision_table (Demo.runtime true)
              (DemoClient.signed 300) (inject_Z 1000) data (VStr "k{}"))))
           key eq_refl eq_refl eq_refl eq_refl)).
Defined.


(** A payload issued exactly 300 s ago passes a 300 s window; one issued
    301 s ago is rejected as expired. *)
Lemma replay_window_boundary_witness :
  let self := DemoClient.signed 300 in
  LicenseClient.replay_check (H := Demo.runtime true) self (inject_Z 1000)
    [("timestamp", VInt 700)] = Ok tt /\
  LicenseClient._verify_response_signature (H := Demo.runtime true) self (inject_Z 1000)
    [("timestamp", VInt 699)] (VStr "k{}") = Raise SignatureExpiredError.
Proof.
  intros self. split.
  - apply (proj1 (proj2 (proj2
             (@replay_window_boundary (Demo.runtime true) self (inject_Z 1000)
                [("timestamp", VInt 700)] (VStr "k{}")
                {| key_material := list_byte_of_string "k" |} 700
                eq_refl eq_refl eq_refl eq_refl eq_refl)))).
    reflexivity.
  - apply (proj2 (proj2 (proj2
             (@replay_window_boundary (Demo.runtime true) self (inject_Z 1000)
                [("timestamp", VInt 699)] (VStr "k{}")
                {| key_material := list_byte_of_string "k" |} 699
                eq_refl eq_refl eq_refl eq_refl eq_refl)))).
    reflexivity.
Defined.

(** A record goes through either cipher and comes back. *)
Lemma cache_encryption_roundtrip_witness :
  (exists c,
      CacheEncryption.encrypt (H := Demo.runtime true)
        (CacheEncryption.__init__ (H := Demo.runtime true) "machine-0001" "app") []
        "{}" = Ok c /\
      CacheEncryption.decrypt (H := Demo.runtime true)
        (CacheEncryption.__init__ (H := Demo.runtime true) "machine-0001" "app") c
      = Ok "{}") /\
  (exists c,
      CacheEncryption.encrypt (H := Demo.runtime false)
        (CacheEncryption.__init__ (H := Demo.runtime false) "machine-0001" "app") []
        "{}" = Ok c /\
      CacheEncryption.decrypt (H := Demo.runtime false)
        (CacheEncryption.__init__ (H := Demo.runtime false) "machine-0001" "app") c
      = Ok "{}").
Proof.
  split.
  - exact (proj1 (@cache_encryption_roundtrip (Demo.runtime true) (demo_runtime_laws true)
                    (CacheEncryption.__init__ (H := Demo.runtime true) "machine-0001" "app")
                    [] "{}")).
  - exact (proj1 (@cache_encryption_roundtrip (Demo.runtime false) (demo_runtime_laws false)
                    (CacheEncryption.__init__ (H := Demo.runtime false) "machine-0001" "app")
                    [] "{}")).
Defined.

(** A server certificate other than the pinned one is a pinning error; an
    unreachable server is none. *)
Lemma pinning_check_outcomes_witness :
  CertificatePinningAdapter._verify_certificate_fingerprint (H := Demo.runtime true)
    (DemoClient.adapter false) DemoClient.url (fun _ _ => Some [x01])
  = Raise CertificatePinningError /\
  CertificatePinningAdapter._verify_certificate_fingerprint (H := Demo.runtime true)
    (DemoClient.adapter false) DemoClient.url (fun _ _ => None)
  = Ok tt.
Proof.
  split.
  - apply (proj1 (@pinning_check_outcomes (Demo.runtime true)) (DemoClient.adapter false)
             DemoClient.url (fun _ _ => Some [x01]) [x01]).
    + reflexivity.
    + reflexivity.
    + discriminate.
  - apply (proj1 (proj2 (@pinning_check_outcomes (Demo.runtime true)))
             (DemoClient.adapter false) DemoClient.url (fun _ _ => None)).
    reflexivity.
Defined.



(** A host with two sandbox indicators is flagged. *)
Lemma anti_analysis_thresholds_witness :
  let h := {| EnvironmentChecker.uuid_getnode := Raise ImportError;
              EnvironmentChecker.platform_platform := Raise ImportError;
              EnvironmentChecker.getpass_getuser := Ok "sandbox";
              EnvironmentChecker.psutil_pids := Ok [];
              EnvironmentChecker.disk_usage_total := Raise ImportError |} in
  EnvironmentChecker.is_sandbox h = true.
Proof.
  intros h.
  apply (proj2 (proj2 (proj1 (proj2 (@anti_analysis_thresholds (Demo.runtime true))) h))).
  simpl. lia.
Defined.

(** A client constructed with a public key and [require_signature=False]
    requires signatures. *)
Lemma public_key_implies_require_signature_witness :
  exists self w',
    LicenseClient.__init__ (H := Demo.runtime true) (DemoClient.config (Some "k") 300)
      "machine-0001" "/home/user" [] [] DemoClient.empty_world = (Ok self, w') /\
    LicenseClient.require_signature self = true.
Proof.
  eexists. eexists. split; [vm_compute; reflexivity|].
  eapply (proj1 (@public_key_implies_require_signature (Demo.runtime true))
            (DemoClient.config (Some "k") 300) "machine-0001" "/home/user" [] []
            DemoClient.empty_world).
  - vm_compute. reflexivity.
  - simpl. eauto.
Defined.

(** A record that expired in 1970 by a numeric [expire_at] is valid. *)
Lemma expiry_checked_only_for_iso_strings_witness :
  let self := DemoClient.licensed true DemoClient.record_with_epoch_expiry in
  let w := DemoClient.empty_world in
  LicenseClient.is_valid (H := Demo.runtime true) (inject_Z 2000) DemoClient.unreachable []
    (self, w) = (Ok (VBool true), (self, w)).
Proof.
  intros self w.
  apply (proj2 (proj2 (@expiry_checked_only_for_iso_strings (Demo.runtime true) self w
                         (inject_Z 2000) DemoClient.unreachable []
                         DemoClient.record_with_epoch_expiry (VInt 1)
                         eq_refl eq_refl eq_refl
                         (fun s (E : VInt 1 = VStr s) => eq_refl)))
           (inject_Z 1000) eq_refl).
  apply Qle_bool_iff. reflexivity.
Defined.
